(** * Users-API: session guard, audit trail and user operations

    A shallow embedding of the NestJS users module: [UsersService]
    (users.service.ts), [UsersController] (users.controller.ts),
    [AuthGuard] (guards/auth.guard.ts) and the JWT settings of
    [UsersModule].  Asynchronous methods are functions in a state and
    exception monad over the record store and a trace of the effects the
    process performs; [try]/[catch] is [try_catch]. *)

From stdpp Require Import gmap strings list pretty.
From Stdlib Require Import ZArith Lia.

Open Scope string_scope.
Open Scope Z_scope.

(** ** HTTP statuses and thrown values *)

Inductive HttpStatus :=
  | OK | CREATED | BAD_REQUEST | UNAUTHORIZED | NOT_FOUND | CONFLICT
  | INTERNAL_SERVER_ERROR.

Definition status_code (s : HttpStatus) : Z :=
  match s with
  | OK => 200 | CREATED => 201 | BAD_REQUEST => 400 | UNAUTHORIZED => 401
  | NOT_FOUND => 404 | CONFLICT => 409 | INTERNAL_SERVER_ERROR => 500
  end.

(** The first argument of [new HttpException(response, status)]: a string,
    an object [{ message }], or the body a built-in exception class builds
    from its message ([{ message, error, statusCode }]). *)
Inductive ExceptionResponse :=
  | RespString (text : string)
  | RespMessage (message : string)
  | RespBody (message error : string) (statusCode : Z).

(** What the record store throws: [Prisma.PrismaClientKnownRequestError]
    with its code, or any other client error. *)
Inductive StoreError :=
  | KnownRequestError (code message : string)
  | UnknownRequestError (message : string).

Inductive Thrown :=
  | HttpException (response : ExceptionResponse) (status : HttpStatus)
  | PrismaError (e : StoreError)
  | JsError (message : string).

Definition response_message (r : ExceptionResponse) : string :=
  match r with
  | RespString text => text
  | RespMessage message => message
  | RespBody message _ _ => message
  end.

(** [error.message] *)
Definition error_message (e : Thrown) : string :=
  match e with
  | HttpException r _ => response_message r
  | PrismaError (KnownRequestError _ message) => message
  | PrismaError (UnknownRequestError message) => message
  | JsError message => message
  end.

Definition UnauthorizedException (message : string) : Thrown :=
  HttpException (RespBody message "Unauthorized" (status_code UNAUTHORIZED))
                UNAUTHORIZED.

(** ** Records *)

(** The user record of the store; [password] holds the bcrypt hash. *)
Module User.
Record t := mk {
  id : string;
  email : string;
  password : string;
  first_name : option string;
  last_name : option string;
}.
End User.

(** interfaces/jwt-payload.interface.ts *)
Module JwtPayload.
Record t := mk {
  id : string;
  email : string;
  first_name : option string;
  last_name : option string;
}.
End JwtPayload.

(** dto/login.dto.ts, dto/register.dto.ts, dto/update-user.dto.ts *)
Module LoginDto.
Record t := mk { email : string; password : string }.
End LoginDto.

Module RegisterDto.
Record t := mk {
  email : string;
  password : string;
  first_name : option string;
  last_name : option string;
}.
End RegisterDto.

Module UpdateUserDto.
Record t := mk {
  first_name : option string;
  last_name : option string;
  email : option string;
}.
End UpdateUserDto.

(** ** JavaScript objects sent back to the client *)

Inductive JsValue :=
  | JsNull
  | JsStr (s : string).

Definition js_opt (o : option string) : JsValue :=
  match o with
  | Some s => JsStr s
  | None => JsNull
  end.

(** The object Prisma hands back for a user record. *)
Definition user_object (u : User.t) : gmap string JsValue :=
  {[ "id" := JsStr (User.id u);
     "email" := JsStr (User.email u);
     "password" := JsStr (User.password u);
     "first_name" := js_opt (User.first_name u);
     "last_name" := js_opt (User.last_name u) ]}.

(** [const { password, ...userWithoutPassword } = user] *)
Definition userWithoutPassword (user : gmap string JsValue)
  : gmap string JsValue :=
  delete "password" user.

(** [first_name || null]: an empty string is falsy. *)
Definition or_null (o : option string) : option string :=
  match o with
  | Some "" => None
  | other => other
  end.

(** What a service method resolves to. *)
Inductive Reply :=
  | ReplyUsers (users : list (gmap string JsValue))
  | ReplyMessageUser (message : string) (user : gmap string JsValue)
  | ReplyUser (user : gmap string JsValue)
  | ReplyLogin (message : string) (user : string).

(** ** The process state *)

Inductive StoreOp := FindMany | FindUnique | Create | Update | Delete.

(** What the process does, in the order it does it. *)
Inductive Event :=
  | StoreCommitted (op : StoreOp)
  | StoreRejected (op : StoreOp)
  | LogLine (line : string)
  | Broadcast (message : string)
  | Stderr (line : string).

Record World := mkWorld {
  db : list User.t;
  trace : list Event;
}.

(** What a call cannot choose: the secret and the clock, the id the store
    gives its next record, and whether a collaborator is failing. *)
Record Env := mkEnv {
  jwt_secret : string;
  now : Z;
  new_id : string;
  store_fault : option StoreError;
  logger_fault : option string;
  gateway_fault : option string;
}.

(** ** The monad of service code *)

Definition M (A : Type) : Type := Env → World → (Thrown + A) * World.

Definition ret {A} (a : A) : M A := λ _ w, (inr a, w).

Definition throw {A} (e : Thrown) : M A := λ _ w, (inl e, w).

Definition bind {A B} (m : M A) (k : A → M B) : M B :=
  λ env w,
    match m env w with
    | (inr a, w') => k a env w'
    | (inl e, w') => (inl e, w')
    end.

(** [try { body } catch (error) { handler }]: the handler starts from the
    state the body left. *)
Definition try_catch {A} (body : M A) (handler : Thrown → M A) : M A :=
  λ env w,
    match body env w with
    | (inr a, w') => (inr a, w')
    | (inl e, w') => handler e env w'
    end.

Definition emit (e : Event) : M unit :=
  λ _ w, (inr tt, mkWorld (db w) (trace w ++ [e])).

Definition ask : M Env := λ env w, (inr env, w).

Notation "'let!' x ':=' m 'in' k" := (bind m (λ x, k))
  (at level 10, x name, m at level 100, k at level 200).
Notation "m ';;' k" := (bind m (λ _, k))
  (at level 100, k at level 200, right associativity).

(** ** The record store

    [PrismaService] is the Prisma client over the [User] collection, whose
    [email] is unique.  A call throws the fault the environment injects,
    or what the client throws by itself: [P2002] on a duplicate unique key,
    [P2025] when the record to change does not exist. *)

Definition P2002 : StoreError :=
  KnownRequestError "P2002" "Unique constraint failed on the fields: (`email`)".

Definition P2025 : StoreError :=
  KnownRequestError "P2025" "Record to update or delete does not exist.".

Definition store_call {A} (op : StoreOp)
    (f : Env → list User.t → StoreError + (A * list User.t)) : M A :=
  λ env w,
    match store_fault env with
    | Some e => (inl (PrismaError e), mkWorld (db w) (trace w ++ [StoreRejected op]))
    | None =>
        match f env (db w) with
        | inl e => (inl (PrismaError e), mkWorld (db w) (trace w ++ [StoreRejected op]))
        | inr (a, db') => (inr a, mkWorld db' (trace w ++ [StoreCommitted op]))
        end
    end.

Definition has_id (id : string) (u : User.t) : bool :=
  bool_decide (User.id u = id).

Definition has_email (email : string) (u : User.t) : bool :=
  bool_decide (User.email u = email).

Module prisma.
(** [prisma.user.findMany()] *)
Definition findMany : M (list User.t) :=
  store_call FindMany (λ _ users, inr (users, users)).

(** [prisma.user.findUnique({ where: { id } })] *)
Definition findUnique_id (id : string) : M (option User.t) :=
  store_call FindUnique (λ _ users, inr (List.find (has_id id) users, users)).

(** [prisma.user.findUnique({ where: { email } })] *)
Definition findUnique_email (email : string) : M (option User.t) :=
  store_call FindUnique
    (λ _ users, inr (List.find (has_email email) users, users)).

(** [prisma.user.create({ data })] *)
Definition create (email password : string)
    (first_name last_name : option string) : M User.t :=
  store_call Create (λ env users,
    if existsb (has_email email) users then inl P2002
    else
      let user := User.mk (new_id env) email password first_name last_name in
      inr (user, (users ++ [user])%list)).

Definition apply_update (data : UpdateUserDto.t) (u : User.t) : User.t :=
  User.mk (User.id u)
    (default (User.email u) (UpdateUserDto.email data))
    (User.password u)
    (match UpdateUserDto.first_name data with
     | Some s => Some s | None => User.first_name u end)
    (match UpdateUserDto.last_name data with
     | Some s => Some s | None => User.last_name u end).

Definition replace_user (user : User.t) (users : list User.t) : list User.t :=
  List.map (λ u, if has_id (User.id user) u then user else u) users.

(** [prisma.user.update({ where: { id }, data })]: the updated record;
    the client throws rather than resolve to [null]. *)
Definition update (id : string) (data : UpdateUserDto.t) : M (option User.t) :=
  store_call Update (λ _ users,
    match List.find (has_id id) users with
    | None => inl P2025
    | Some u =>
        let user := apply_update data u in
        if existsb (λ v, has_email (User.email user) v && negb (has_id id v)) users
        then inl P2002
        else inr (Some user, replace_user user users)
    end).

(** [prisma.user.delete({ where: { id } })]: the deleted record; here too
    the client throws rather than resolve to [null]. *)
Definition delete (id : string) : M (option User.t) :=
  store_call Delete (λ _ users,
    match List.find (has_id id) users with
    | None => inl P2025
    | Some user => inr (Some user, List.filter (λ u, negb (has_id id u)) users)
    end).
End prisma.

(** ** Logger and gateway *)

(** [logger.info] of the injected Winston logger: the line goes to the
    durable sink, or the call throws when the sink is failing. *)
Definition logger_info (line : string) : M unit :=
  let! env := ask in
  match logger_fault env with
  | Some reason => throw (JsError reason)
  | None => emit (LogLine line)
  end.

(** Modelled from the spec: [broadcast] of the NotificationHub, the
    [WSGateway] (src/websockets/websocket.gateway) that is not among the
    sources: the message is handed to the hub for the [notification] event
    of every connected subscriber.  The spec lets no subscriber fail the
    call; [gateway_fault] lets the emission itself fail, which the caller
    then has to contain. *)
Definition gateway_broadcast (message : string) : M unit :=
  emit (Broadcast message);;
  let! env := ask in
  match gateway_fault env with
  | Some reason => throw (JsError reason)
  | None => ret tt
  end.

Definition console_error (line : string) : M unit := emit (Stderr line).

(** Modelled from the spec: [LogNotifyHelper.logOperation]
    (src/common/utils/log-notify.helper), which is not among the sources.
    It is the spec's [AuditChannel.record] for every operation but [view]:
    the line always goes to the durable sink, the same summary is forwarded
    to the hub exactly once, and a failure of either is caught, reported on
    stderr and never reaches the caller. *)
Definition logOperation (message : string) : M unit :=
  try_catch (logger_info message) (λ e, console_error (error_message e));;
  try_catch (gateway_broadcast message) (λ e, console_error (error_message e)).

(** ** Session tokens and cookies *)

Inductive TokenKind := Access | Refresh.

Record Claims := mkClaims {
  payload : JwtPayload.t;
  iat : Z;
  exp : Z;
}.

(** The kind is carried by the cookie name only; it is not signed. *)
Record SessionToken := mkToken {
  kind : TokenKind;
  claims : Claims;
  signature : string;
}.

(** The value of a cookie: a signed token, or any other text. *)
Inductive CookieValue :=
  | Opaque (raw : string)
  | Jwt (token : SessionToken).

(** [!token] *)
Definition falsy (token : CookieValue) : bool :=
  match token with
  | Opaque "" => true
  | _ => false
  end.

Inductive CookieDirective :=
  | SetCookie (name : string) (value : CookieValue) (httpOnly secure : bool)
  | ClearCookie (name : string).

(** The Express response under construction. *)
Record Response := mkResponse {
  res_status : HttpStatus;
  res_body : option (gmap string JsValue);
  res_cookies : list CookieDirective;
}.

Definition fresh_response : Response := mkResponse OK None [].

Definition res_cookie (name : string) (value : CookieValue)
    (httpOnly secure : bool) (res : Response) : Response :=
  mkResponse (res_status res) (res_body res)
             (res_cookies res ++ [SetCookie name value httpOnly secure]).

Definition res_clearCookie (name : string) (res : Response) : Response :=
  mkResponse (res_status res) (res_body res) (res_cookies res ++ [ClearCookie name]).

Definition res_status_json (status : HttpStatus) (body : gmap string JsValue)
    (res : Response) : Response :=
  mkResponse status (Some body) (res_cookies res).

(** What the client's cookie jar becomes when the response arrives. *)
Definition apply_directive (jar : gmap string CookieValue) (d : CookieDirective)
  : gmap string CookieValue :=
  match d with
  | SetCookie name value _ _ => <[name := value]> jar
  | ClearCookie name => delete name jar
  end.

Definition receive (res : Response) (jar : gmap string CookieValue)
  : gmap string CookieValue :=
  foldl apply_directive jar (res_cookies res).

(** The request as the guard and the controller see it. *)
Record Request := mkRequest {
  cookies : option (gmap string CookieValue);
  user : option JwtPayload.t;
}.

(** [request.cookies?.access_token] *)
Definition access_token (request : Request) : option CookieValue :=
  cookies request ≫= (λ jar, jar !! "access_token").

Inductive VerifyError := InvalidToken | ExpiredToken.

(** [signOptions: { expiresIn: '15m' }] of [JwtModule.register], in seconds. *)
Definition expiresIn : Z := 15 * 60.

Definition identity_of (user : User.t) : JwtPayload.t :=
  JwtPayload.mk (User.id user) (User.email user)
                (User.first_name user) (User.last_name user).

Section Users.

(** The collaborators the module only calls: the keyed signature of the
    JWT library, bcrypt, and the lifetime of the refresh token. *)
Variable hs256 : string → Claims → string.
Variable bcrypt_hash : string → Z → string.
Variable bcrypt_compare : string → string → bool.
Variable refresh_ttl : Z.

(** *** TokenIssuer *)

(** Modelled from the spec: the signing step of [issue], below. *)
Definition sign (secret : string) (k : TokenKind) (identity : JwtPayload.t)
    (issued_at ttl : Z) : SessionToken :=
  let c := mkClaims identity issued_at (issued_at + ttl) in
  mkToken k c (hs256 secret c).

(** Modelled from the spec: [issue] of the TokenIssuer, the signing half
    of [setTokens] (src/common/utils/set-tokens), which is not among the
    sources.  Both tokens carry the identity and are signed with the
    process-wide secret; the access token expires [expiresIn] after it
    was issued, the refresh token later. *)
Definition issue (secret : string) (issued_at : Z) (identity : JwtPayload.t)
  : SessionToken * SessionToken :=
  (sign secret Access identity issued_at expiresIn,
   sign secret Refresh identity issued_at refresh_ttl).

(** What [JwtService.verifyAsync] does with the module's settings
    ([ignoreExpiration] off), as the jsonwebtoken library behind it: the
    signature is checked first, then the expiry, and the token is refused
    as expired from the instant the clock reaches [exp].  (The spec words
    its [verify] as expired when [now > expires_at]; the two differ at that
    one instant.) *)
Definition verify (secret : string) (time : Z) (tokenString : CookieValue)
  : VerifyError + JwtPayload.t :=
  match tokenString with
  | Opaque _ => inl InvalidToken
  | Jwt t =>
      if bool_decide (signature t = hs256 secret (claims t)) then
        if bool_decide (exp (claims t) ≤ time) then inl ExpiredToken
        else inr (payload (claims t))
      else inl InvalidToken
  end.

Definition verify_error_message (e : VerifyError) : string :=
  match e with
  | InvalidToken => "invalid token"
  | ExpiredToken => "jwt expired"
  end.

(** [this.jwtService.verifyAsync(token)] *)
Definition verifyAsync (token : CookieValue) : M JwtPayload.t :=
  let! env := ask in
  match verify (jwt_secret env) (now env) token with
  | inr identity => ret identity
  | inl e => throw (JsError (verify_error_message e))
  end.

(** Modelled from the spec: [setTokens] (src/common/utils/set-tokens),
    which is not among the sources: it issues the pair for the user and
    writes both as HTTP-only, secure cookies [access_token] and
    [refresh_token] on the response. *)
Definition setTokens (user : User.t) (res : Response) : M Response :=
  let! env := ask in
  let tokens := issue (jwt_secret env) (now env) (identity_of user) in
  ret (res_cookie "refresh_token" (Jwt (tokens.2)) true true
         (res_cookie "access_token" (Jwt (tokens.1)) true true res)).

(** *** AuthGuard (guards/auth.guard.ts) *)

Definition canActivate (request : Request) : M (bool * Request) :=
  match access_token request with
  | None => throw (UnauthorizedException "Access token not found")
  | Some token =>
      if falsy token then throw (UnauthorizedException "Access token not found")
      else
        try_catch
          (let! payload := verifyAsync token in
           ret (true, mkRequest (cookies request) (Some payload)))
          (λ error, throw (UnauthorizedException "Invalid or expired token"))
  end.

(** *** UsersService (users.service.ts) *)

(** The summaries the methods log, one template string each. *)
Definition listed_message (email : string) (count : nat) : string :=
  "El usuario " +:+ email +:+ " ha realizado la operación de listar "
  +:+ pretty count +:+ " usuarios".

Definition deleted_message (email id : string) : string :=
  "Usuario " +:+ email
  +:+ " ha realizado la operación la eliminación del usuario con ID " +:+ id.

Definition updated_message (email id : string) : string :=
  "Usuario " +:+ email
  +:+ " ha realizado la operación de actualización del usuario con ID " +:+ id.

Definition viewed_message (email : string) : string :=
  "Usuario " +:+ email +:+ " ha realizado la operación de ver su perfil".

Definition login_message (email : string) : string :=
  "Usuario " +:+ email +:+ " ha realizado la operación de login".

Definition registered_message (email : string) : string :=
  "Usuario " +:+ email +:+ " ha realizado la operación de registro".

(** The [user] object [registerUser] answers with. *)
Definition registered_object (newUser : User.t) : gmap string JsValue :=
  {[ "id" := JsStr (User.id newUser);
     "email" := JsStr (User.email newUser);
     "first_name" := js_opt (User.first_name newUser);
     "last_name" := js_opt (User.last_name newUser) ]}.

(** The [catch] of every method but [registerUser]. *)
Definition bad_request {A} (error : Thrown) : M A :=
  throw (HttpException (RespMessage (error_message error)) BAD_REQUEST).

Definition listAllUsers (req : JwtPayload.t) : M Reply :=
  try_catch
    (let! users := prisma.findMany in
     logOperation (listed_message (JwtPayload.email req) (length users));;
     ret (ReplyUsers (user_object <$> users)))
    bad_request.

Definition deleteUser (id : string) (req : JwtPayload.t) : M Reply :=
  try_catch
    (logOperation (deleted_message (JwtPayload.email req) id);;
     let! deleted := prisma.delete id in
     match deleted with
     | None =>
         throw (HttpException (RespMessage "This user does not exist") BAD_REQUEST)
     | Some user => ret (ReplyMessageUser "User deleted!" (user_object user))
     end)
    bad_request.

Definition updateUser (id : string) (updateDto : UpdateUserDto.t)
    (req : JwtPayload.t) : M Reply :=
  try_catch
    (let! updated := prisma.update id updateDto in
     match updated with
     | None =>
         throw (HttpException (RespMessage "This user does not exist") BAD_REQUEST)
     | Some user =>
         logOperation (updated_message (JwtPayload.email req) id);;
         ret (ReplyMessageUser "User updated!"
                (userWithoutPassword (user_object user)))
     end)
    bad_request.

Definition getProfile (userPayload : JwtPayload.t) : M Reply :=
  try_catch
    (let! found := prisma.findUnique_id (JwtPayload.id userPayload) in
     match found with
     | None =>
         throw (HttpException (RespMessage "This user does not exist") BAD_REQUEST)
     | Some user =>
         logger_info (viewed_message (User.email user));;
         ret (ReplyUser (userWithoutPassword (user_object user)))
     end)
    bad_request.

Definition loginUser (authDto : LoginDto.t) (res : Response)
  : M (Reply * Response) :=
  try_catch
    (let email := LoginDto.email authDto in
     let password := LoginDto.password authDto in
     let! found := prisma.findUnique_email email in
     match found with
     | None =>
         throw (HttpException (RespMessage "User or password invalid") BAD_REQUEST)
     | Some user =>
         if negb (bcrypt_compare password (User.password user)) then
           throw (HttpException (RespMessage "Incorrect password") BAD_REQUEST)
         else
           let! res' := setTokens user res in
           logOperation (login_message email);;
           ret (ReplyLogin "Successful login!" (User.email user), res')
     end)
    bad_request.

(** The [catch] of [registerUser]. *)
Definition is_duplicate_key (error : Thrown) : bool :=
  match error with
  | PrismaError (KnownRequestError code _) => bool_decide (code = "P2002")
  | _ => false
  end.

Definition register_failure {A} (error : Thrown) : M A :=
  if is_duplicate_key error then
    throw (HttpException (RespString "The email is already registered") CONFLICT)
  else
    let errorMessage :=
      match error with
      | HttpException response _ => response
      | _ => RespString ("Internal server error " +:+ error_message error)
      end in
    let statusCode :=
      match error with
      | HttpException _ status => status
      | _ => INTERNAL_SERVER_ERROR
      end in
    throw (HttpException errorMessage statusCode).

Definition registerUser (registerDto : RegisterDto.t) (res : Response)
  : M (Reply * Response) :=
  let email := RegisterDto.email registerDto in
  let hashedPassword := bcrypt_hash (RegisterDto.password registerDto) 10 in
  try_catch
    (let! newUser :=
       prisma.create email hashedPassword
         (or_null (RegisterDto.first_name registerDto))
         (or_null (RegisterDto.last_name registerDto)) in
     let! res' := setTokens newUser res in
     logOperation (registered_message email);;
     ret (ReplyMessageUser "Successful register!" (registered_object newUser), res'))
    register_failure.

(** *** UsersController (users.controller.ts) *)

(** [logout]: both cookies are cleared, whatever the request carried. *)
Definition logout (res : Response) : Response :=
  res_status_json OK {[ "message" := JsStr "Logout successful" ]}
    (res_clearCookie "refresh_token" (res_clearCookie "access_token" res)).

(** A logout as the client lives it: the response, and the jar after it. *)
Definition logout_exchange (jar : gmap string CookieValue)
  : Response * gmap string CookieValue :=
  let res := logout fresh_response in
  (res, receive res jar).

(** The calls the controller passes to the service. *)
Inductive Operation :=
  | OpLogin (loginDto : LoginDto.t) (res : Response)
  | OpRegister (registerDto : RegisterDto.t) (res : Response)
  | OpGetProfile (user : JwtPayload.t)
  | OpUpdateUser (id : string) (updateDto : UpdateUserDto.t) (user : JwtPayload.t)
  | OpDeleteUser (id : string) (user : JwtPayload.t)
  | OpGetAllUsers (user : JwtPayload.t).

Definition no_response (m : M Reply) : M (Reply * option Response) :=
  let! reply := m in ret (reply, None).

Definition with_response (m : M (Reply * Response)) : M (Reply * option Response) :=
  let! r := m in ret (r.1, Some (r.2)).

Definition perform (op : Operation) : M (Reply * option Response) :=
  match op with
  | OpLogin loginDto res => with_response (loginUser loginDto res)
  | OpRegister registerDto res => with_response (registerUser registerDto res)
  | OpGetProfile user => no_response (getProfile user)
  | OpUpdateUser id updateDto user => no_response (updateUser id updateDto user)
  | OpDeleteUser id user => no_response (deleteUser id user)
  | OpGetAllUsers user => no_response (listAllUsers user)
  end.

(** [getProfile] is the one read of a personal record: the [view]. *)
Definition is_view (op : Operation) : bool :=
  match op with
  | OpGetProfile _ => true
  | _ => false
  end.

(** [@UseGuards(AuthGuard)]: the handler runs only when the guard let the
    request through, and reads the identity the guard attached as
    [req.user].  The guard sets [request.user] whenever it resolves, so the
    [None] branch is never taken. *)
Definition UseGuards {A} (handler : JwtPayload.t → M A) (request : Request)
  : M A :=
  let! passed := canActivate request in
  match user passed.2 with
  | Some identity => handler identity
  | None => throw (JsError "req.user is undefined")
  end.

Definition controller_login (loginDto : LoginDto.t) (res : Response)
  : M (Reply * Response) :=
  loginUser loginDto res.

Definition controller_register (registerDto : RegisterDto.t) (res : Response)
  : M (Reply * Response) :=
  registerUser registerDto res.

Definition controller_getProfile (req : Request) : M Reply :=
  UseGuards getProfile req.

Definition controller_updateUser (id : string) (updateDto : UpdateUserDto.t)
    (req : Request) : M Reply :=
  UseGuards (updateUser id updateDto) req.

Definition controller_deleteUser (id : string) (req : Request) : M Reply :=
  UseGuards (deleteUser id) req.

Definition controller_getAllUsers (req : Request) : M Reply :=
  UseGuards listAllUsers req.

(** The store call each operation makes. *)
Definition store_op_of (op : Operation) : StoreOp :=
  match op with
  | OpLogin _ _ => FindUnique
  | OpRegister _ _ => Create
  | OpGetProfile _ => FindUnique
  | OpUpdateUser _ _ _ => Update
  | OpDeleteUser _ _ => Delete
  | OpGetAllUsers _ => FindMany
  end.

(** The operations that ask the store to change a record. *)
Definition is_write (op : Operation) : bool :=
  match op with
  | OpRegister _ _ | OpUpdateUser _ _ _ | OpDeleteUser _ _ => true
  | _ => false
  end.

End Users.

(** ** Observations on a run *)

(** The events a computation adds to the trace. *)
Definition events_of {A} (m : M A) (env : Env) (w : World) : list Event :=
  drop (length (trace w)) (trace (m env w).2).

Definition broadcast_message (e : Event) : option string :=
  match e with
  | Broadcast message => Some message
  | _ => None
  end.

Definition broadcasts (events : list Event) : list string :=
  omap broadcast_message events.

(** Every broadcast of [events] comes after a store call that committed;
    [committed] tells whether one came before [events]. *)
Fixpoint broadcast_after_commit (committed : bool) (events : list Event) : bool :=
  match events with
  | [] => true
  | StoreCommitted _ :: rest => broadcast_after_commit true rest
  | Broadcast _ :: rest => committed && broadcast_after_commit committed rest
  | _ :: rest => broadcast_after_commit committed rest
  end.

(** What the guard decides: the exception it throws, or the identity it
    attaches to the request. *)
Definition decision (r : (Thrown + bool * Request) * World)
  : Thrown + bool * option JwtPayload.t :=
  match r.1 with
  | inl e => inl e
  | inr (allowed, request) => inr (allowed, user request)
  end.

(** Two environments that differ at most in whether the log sink and the
    gateway are failing. *)
Definition same_but_audit (env env' : Env) : Prop :=
  jwt_secret env = jwt_secret env' ∧ now env = now env' ∧
  new_id env = new_id env' ∧ store_fault env = store_fault env'.

(** The fields of a record a reply may show, and the stored record in
    full, as lists of keys and values. *)
Definition public_fields (u : User.t) : list (string * JsValue) :=
  [("id", JsStr (User.id u)); ("email", JsStr (User.email u));
   ("first_name", js_opt (User.first_name u));
   ("last_name", js_opt (User.last_name u))].

Definition stored_fields (u : User.t) : list (string * JsValue) :=
  ("password", JsStr (User.password u)) :: public_fields u.

Definition is_P2002 (e : StoreError) : bool :=
  match e with
  | KnownRequestError code _ => bool_decide (code = "P2002")
  | UnknownRequestError _ => false
  end.

(** What [logOperation] adds to the trace: the line or the report of its
    loss, the message for the hub, and the report of a failed emission. *)
Definition audit_events (message : string) (env : Env) : list Event :=
  match logger_fault env with
  | Some reason => Stderr reason
  | None => LogLine message
  end
  :: Broadcast message
  :: match gateway_fault env with
     | Some reason => [Stderr reason]
     | None => []
     end.

(** [jwtFromRequest] of [JwtStrategy] (strategies/jwt.strategy.ts):
    [req?.cookies?.['access_token'] || null]. *)
Definition jwtFromRequest (req : option Request) : option CookieValue :=
  match req ≫= access_token with
  | Some token => if falsy token then None else Some token
  | None => None
  end.

Definition log_line (e : Event) : option string :=
  match e with
  | LogLine line => Some line
  | _ => None
  end.

Definition log_lines (events : list Event) : list string :=
  omap log_line events.

Definition store_call_of (e : Event) : option StoreOp :=
  match e with
  | StoreCommitted op | StoreRejected op => Some op
  | _ => None
  end.

Definition store_calls (events : list Event) : list StoreOp :=
  omap store_call_of events.


(** ** Sample collaborators and inputs *)

Module Sample.
Definition hs256 (secret : string) (c : Claims) : string :=
  secret +:+ "." +:+ JwtPayload.id (payload c) +:+ "." +:+ JwtPayload.email (payload c)
  +:+ "." +:+ pretty (iat c) +:+ "." +:+ pretty (exp c).

Definition bcrypt_hash (plain : string) (rounds : Z) : string :=
  "$2b$" +:+ pretty rounds +:+ "$" +:+ plain.

Definition bcrypt_compare (plain hashed : string) : bool :=
  bool_decide (bcrypt_hash plain 10 = hashed).

Definition refresh_ttl : Z := 7 * 24 * 60 * 60.

Definition env : Env := mkEnv "s3cret" 1000 "u2" None None None.

Definition env_logger_down : Env :=
  mkEnv "s3cret" 1000 "u2" None (Some "EACCES: permission denied") None.

Definition env_audit_down : Env :=
  mkEnv "s3cret" 1000 "u2" None (Some "EACCES: permission denied")
        (Some "socket closed").

Definition env_store_duplicate : Env :=
  mkEnv "s3cret" 1000 "u2" (Some (KnownRequestError "P2002" "duplicate key"))
        None None.

Definition env_store_down : Env :=
  mkEnv "s3cret" 1000 "u2" (Some (UnknownRequestError "connection lost")) None None.

Definition alice : User.t :=
  User.mk "u1" "a@x.com" (bcrypt_hash "Passw0rd!" 10) (Some "Alice") None.

Definition identity : JwtPayload.t := JwtPayload.mk "u1" "a@x.com" (Some "Alice") None.

Definition world : World := mkWorld [alice] [].

Definition empty_world : World := mkWorld [] [].

Definition no_cookie : Request := mkRequest None None.

Definition bad_cookie : Request :=
  mkRequest (Some {[ "access_token" := Opaque "not.a.token" ]}) None.

Definition good_cookie : Request :=
  mkRequest
    (Some {[ "access_token" := Jwt (issue hs256 refresh_ttl "s3cret" 500 identity).1 ]})
    None.

(** Issued at 0 it expired at 900, while the clock of [env] reads 1000. *)
Definition expired_cookie : Request :=
  mkRequest
    (Some {[ "access_token" := Jwt (issue hs256 refresh_ttl "s3cret" 0 identity).1 ]})
    None.

Definition taken : RegisterDto.t :=
  RegisterDto.mk "a@x.com" "An0ther!pw" (Some "Al") None.

Definition newcomer : RegisterDto.t :=
  RegisterDto.mk "b@x.com" "An0ther!pw" (Some "Bob") None.

Definition bob : User.t :=
  User.mk "u2" "b@x.com" (bcrypt_hash "An0ther!pw" 10) (Some "Bob") None.

Definition two_users : World := mkWorld [alice; bob] [].

Definition alice_login : LoginDto.t := LoginDto.mk "a@x.com" "Passw0rd!".

Definition wrong_password : LoginDto.t := LoginDto.mk "a@x.com" "guess".

Definition unknown_login : LoginDto.t := LoginDto.mk "nobody@x.com" "guess".

Definition rename : UpdateUserDto.t := UpdateUserDto.mk (Some "Alicia") None None.

(** A later moment, within the lifetime of a token issued at 1000. *)
Definition env_later : Env := mkEnv "s3cret" 1600 "u3" None None None.

(** What a login of [alice] at the clock of [env] leaves on a fresh
    response. *)
Definition login_response : Response :=
  res_cookie "refresh_token"
    (Jwt (issue hs256 refresh_ttl "s3cret" 1000 identity).2) true true
    (res_cookie "access_token"
       (Jwt (issue hs256 refresh_ttl "s3cret" 1000 identity).1) true true
       fresh_response).

Definition newcomer_again : RegisterDto.t :=
  RegisterDto.mk "b@x.com" "Different1!" None None.

Definition alicia : User.t :=
  User.mk "u1" "a@x.com" (bcrypt_hash "Passw0rd!" 10) (Some "Alicia") None.
End Sample.

(** * Properties *)

Section Properties.

Variable hs256 : string → Claims → string.
Variable bcrypt_hash : string → Z → string.
Variable bcrypt_compare : string → string → bool.
Variable refresh_ttl : Z.

#[local] Abbreviation serve :=
  (perform hs256 bcrypt_hash bcrypt_compare refresh_ttl).
#[local] Abbreviation register := (registerUser hs256 bcrypt_hash refresh_ttl).


(** ** Tokens *)

(** C4. The access token issued for an identity verifies to that identity
    at any time before its expiry, fifteen minutes after it was issued, and
    fails as expired at any time after it. *)
Theorem verify_issue_access (secret : string) (issued_at time : Z)
    (identity : JwtPayload.t) :
  (time < issued_at + 15 * 60 →
     verify hs256 secret time
       (Jwt (issue hs256 refresh_ttl secret issued_at identity).1)
     = inr identity) ∧
  (issued_at + 15 * 60 < time →
     verify hs256 secret time
       (Jwt (issue hs256 refresh_ttl secret issued_at identity).1)
     = inl ExpiredToken).
Proof.
  unfold verify, issue, sign, expiresIn; simpl.
  rewrite bool_decide_eq_true_2 by reflexivity.
  split; intros Htime.
  - rewrite bool_decide_eq_false_2 by lia. reflexivity.
  - rewrite bool_decide_eq_true_2 by lia. reflexivity.
Qed.

(** ** The guard *)

Lemma canActivate_world (request : Request) (env : Env) (w : World) :
  (canActivate hs256 request env w).2 = w.
Proof.
  unfold canActivate.
  destruct (access_token request) as [token|]; [|reflexivity].
  destruct (falsy token); [reflexivity|].
  cbv [try_catch bind verifyAsync ask ret throw].
  destruct (verify hs256 (jwt_secret env) (now env) token); reflexivity.
Qed.

Lemma canActivate_verified (request : Request) (env : Env) (w : World)
    (token : CookieValue) :
  access_token request = Some token →
  (canActivate hs256 request env w).1 =
    match verify hs256 (jwt_secret env) (now env) token with
    | inr identity => inr (true, mkRequest (cookies request) (Some identity))
    | inl _ =>
        inl (UnauthorizedException
               (if falsy token then "Access token not found"
                else "Invalid or expired token"))
    end.
Proof.
  intros Htoken. unfold canActivate. rewrite Htoken.
  destruct token as [raw|t].
  - destruct (falsy (Opaque raw)); reflexivity.
  - change (falsy (Jwt t)) with false; cbv iota.
    cbv [try_catch bind verifyAsync ask ret throw].
    destruct (verify hs256 (jwt_secret env) (now env) (Jwt t)); reflexivity.
Qed.

(** C3, as the code has it. A request without the [access_token] cookie and
    a request whose token fails verification are both refused with an
    [UnauthorizedException] of status 401; an invalid and an expired token
    are refused alike, but the message of a missing cookie is
    ["Access token not found"] and that of a failed token is
    ["Invalid or expired token"]. *)
Theorem guard_refuses_with_401 (request : Request) (env : Env) (w : World) :
  (access_token request = None →
     (canActivate hs256 request env w).1 =
       inl (HttpException (RespBody "Access token not found" "Unauthorized" 401)
                          UNAUTHORIZED)) ∧
  (∀ token failure,
     access_token request = Some token → falsy token = false →
     verify hs256 (jwt_secret env) (now env) token = inl failure →
     (canActivate hs256 request env w).1 =
       inl (HttpException (RespBody "Invalid or expired token" "Unauthorized" 401)
                          UNAUTHORIZED)).
Proof.
  split.
  - intros Hnone. unfold canActivate. rewrite Hnone. reflexivity.
  - intros token failure Htoken Htruthy Hfail.
    rewrite (canActivate_verified _ _ _ _ Htoken), Hfail, Htruthy. reflexivity.
Qed.

(** C8. What the guard decides depends on the presented cookie, the secret
    and the clock only: whatever the two record stores hold, the decisions
    agree, a token that verifies is accepted with its identity attached,
    and the guard leaves the world as it found it, without a store call. *)
Theorem guard_is_stateless (request request' : Request) (env env' : Env)
    (w w' : World) :
  access_token request = access_token request' →
  jwt_secret env = jwt_secret env' →
  now env = now env' →
  decision (canActivate hs256 request env w)
  = decision (canActivate hs256 request' env' w') ∧
  (∀ token identity,
     access_token request = Some token →
     verify hs256 (jwt_secret env) (now env) token = inr identity →
     decision (canActivate hs256 request env w) = inr (true, Some identity) ∧
     decision (canActivate hs256 request' env' w') = inr (true, Some identity)) ∧
  (canActivate hs256 request env w).2 = w ∧
  events_of (canActivate hs256 request) env w = [].
Proof.
  intros Hcookie Hsecret Hnow.
  assert (Hdec : decision (canActivate hs256 request env w)
                 = decision (canActivate hs256 request' env' w')).
  { unfold decision.
    destruct (access_token request) as [token|] eqn:Htoken.
    - symmetry in Hcookie.
      rewrite (canActivate_verified _ _ _ _ Htoken),
              (canActivate_verified _ _ _ _ Hcookie), Hsecret, Hnow.
      destruct (verify hs256 _ _ token); reflexivity.
    - unfold canActivate. rewrite Htoken, <- Hcookie. reflexivity. }
  split; [exact Hdec|]. split; [|split].
  - intros token identity Htoken Hok. rewrite <- Hdec.
    assert (decision (canActivate hs256 request env w)
            = inr (true, Some identity)) as ->;
      [|split; reflexivity].
    unfold decision. rewrite (canActivate_verified _ _ _ _ Htoken), Hok. reflexivity.
  - apply canActivate_world.
  - unfold events_of. rewrite canActivate_world. apply drop_all.
Qed.

(** ** Logout *)

(** C9. Logout answers 200 and leaves neither [access_token] nor
    [refresh_token] in the jar, whatever the jar held; a second logout gives
    the same response and the same jar as the first. *)
Theorem logout_idempotent (jar : gmap string CookieValue) :
  res_status (logout_exchange jar).1 = OK ∧
  (logout_exchange jar).2 !! "access_token" = None ∧
  (logout_exchange jar).2 !! "refresh_token" = None ∧
  logout_exchange (logout_exchange jar).2 = logout_exchange jar.
Proof.
  unfold logout_exchange, receive; simpl.
  repeat split.
  - rewrite lookup_delete_ne by discriminate. apply lookup_delete_eq.
  - apply lookup_delete_eq.
  - f_equal.
    rewrite (delete_delete (delete "access_token" jar) "access_token" "refresh_token").
    rewrite !delete_delete_eq. reflexivity.
Qed.

(** ** The service *)

Lemma logOperation_run (message : string) (env : Env) (w : World) :
  logOperation message env w
  = (inr tt, mkWorld (db w) (trace w ++ audit_events message env)).
Proof.
  unfold logOperation, audit_events, logger_info, gateway_broadcast,
    console_error, try_catch, bind, ask, emit, throw, ret.
  destruct (logger_fault env), (gateway_fault env); cbn;
    rewrite <- ?app_assoc; reflexivity.
Qed.

Lemma logger_info_run (line : string) (env : Env) (w : World) :
  logger_info line env w
  = match logger_fault env with
    | Some reason => (inl (JsError reason), w)
    | None => (inr tt, mkWorld (db w) (trace w ++ [LogLine line]))
    end.
Proof.
  unfold logger_info, bind, ask, emit, throw.
  destruct (logger_fault env); reflexivity.
Qed.

Lemma broadcasts_audit_events (message : string) (env : Env) :
  broadcasts (audit_events message env) = [message].
Proof.
  unfold audit_events.
  destruct (logger_fault env), (gateway_fault env); reflexivity.
Qed.

Lemma broadcasts_app (l k : list Event) :
  broadcasts (l ++ k) = (broadcasts l ++ broadcasts k)%list.
Proof. apply omap_app. Qed.

(** Symbolic execution of a service call recorded in [H]: unfold the
    method, then settle the collaborators' answers one at a time. *)
Ltac unfold_service H :=
  cbv [perform no_response with_response listAllUsers deleteUser
       updateUser getProfile loginUser registerUser
       setTokens bad_request register_failure prisma.findMany
       prisma.findUnique_id prisma.findUnique_email prisma.create
       prisma.update prisma.delete store_call bind try_catch ret throw ask]
    in H.

Ltac exec_service H :=
  repeat (cbn [fst snd db trace] in H;
          first [ rewrite logOperation_run in H
                | rewrite logger_info_run in H
                | match type of H with
                  | context [match ?x with _ => _ end] =>
                      lazymatch x with
                      | context [match _ with _ => _ end] => fail
                      | _ => destruct x eqn:?
                      end
                  end ]);
  cbn [fst snd db trace] in H.

Ltac run_service H := unfold_service H; exec_service H.

Ltac new_events :=
  cbn [trace]; rewrite <- ?app_assoc; rewrite ?drop_app_length, ?drop_all.

(** C2. A successful [getProfile], the [view], hands nothing to the hub;
    every successful login, register, list, update and delete hands it
    exactly one message. *)
Theorem one_broadcast_unless_view (op : Operation) (env : Env) (w : World)
    (reply : Reply * option Response) :
  (serve op env w).1 = inr reply →
  length (broadcasts (events_of (serve op) env w))
  = if is_view op then 0%nat else 1%nat.
Proof.
  unfold events_of.
  destruct (serve op env w) as [r w'] eqn:Hrun.
  cbn [fst snd]. intros ->.
  destruct op; run_service Hrun; simplify_eq; new_events;
    rewrite ?broadcasts_app, ?broadcasts_audit_events; reflexivity.
Qed.

(** In login, register, update and list the message reaches the hub only
    after the store call of the operation committed. *)
Lemma broadcast_follows_commit (op : Operation) (env : Env) (w : World) :
  (∀ id user, op ≠ OpDeleteUser id user) →
  broadcast_after_commit false (events_of (serve op) env w) = true.
Proof.
  intros Hnot. unfold events_of.
  destruct (serve op env w) as [r w'] eqn:Hrun. cbn [fst snd].
  destruct op; try (exfalso; eapply Hnot; reflexivity);
    run_service Hrun; simplify_eq; new_events; unfold audit_events;
    repeat case_match; reflexivity.
Qed.

(** [deleteUser] hands its message to the hub before it calls the store,
    whatever the call then does. *)
Lemma deleteUser_broadcast_first (id : string) (req : JwtPayload.t)
    (env : Env) (w : World) :
  broadcast_after_commit false (events_of (deleteUser id req) env w) = false.
Proof.
  unfold events_of.
  destruct (deleteUser id req env w) as [r w'] eqn:Hrun. cbn [fst snd].
  run_service Hrun; simplify_eq; new_events; unfold audit_events;
    repeat case_match; reflexivity.
Qed.

(** C1, at the failing input. Deleting an id the store does not hold: the
    deletion is announced to the hub, then the store rejects the call, and
    the caller gets an error for an operation whose notice already went
    out. *)
Theorem deleteUser_announces_uncommitted :
  let message := deleted_message "a@x.com" "u404" in
  let r := deleteUser "u404" Sample.identity Sample.env Sample.world in
  r.1 = inl (HttpException (RespMessage "Record to update or delete does not exist.")
                           BAD_REQUEST) ∧
  db r.2 = db Sample.world ∧
  trace r.2 = [LogLine message; Broadcast message; StoreRejected Delete] ∧
  broadcast_after_commit false (trace r.2) = false.
Proof. vm_compute. repeat split. Qed.


(** Naming a record the store does not hold ends in [BAD_REQUEST], the
    status of every other failure of these three methods. *)
Lemma absent_record_status (id : string) (updateDto : UpdateUserDto.t)
    (req : JwtPayload.t) (env : Env) (w : World) :
  store_fault env = None →
  List.find (has_id id) (db w) = None →
  (deleteUser id req env w).1
    = inl (HttpException (RespMessage "Record to update or delete does not exist.")
                         BAD_REQUEST) ∧
  (updateUser id updateDto req env w).1
    = inl (HttpException (RespMessage "Record to update or delete does not exist.")
                         BAD_REQUEST) ∧
  (JwtPayload.id req = id →
   (getProfile req env w).1
     = inl (HttpException (RespMessage "This user does not exist") BAD_REQUEST)).
Proof.
  intros Hstore Habsent. repeat split; [| |intros <-].
  - destruct (deleteUser id req env w) as [r w'] eqn:Hrun.
    run_service Hrun; simplify_eq; reflexivity.
  - destruct (updateUser id updateDto req env w) as [r w'] eqn:Hrun.
    run_service Hrun; simplify_eq; reflexivity.
  - destruct (getProfile req env w) as [r w'] eqn:Hrun.
    run_service Hrun; simplify_eq; reflexivity.
Qed.

(** C5, at the failing input. With a store that holds no record ["u404"],
    [getProfile], [updateUser] and [deleteUser] all fail with status 400,
    not 404, the very status a failing store gives them. *)
Theorem absent_record_is_bad_request :
  let stranger := JwtPayload.mk "u404" "z@x.com" None None in
  let patch := UpdateUserDto.mk (Some "Zed") None None in
  (getProfile stranger Sample.env Sample.world).1
    = inl (HttpException (RespMessage "This user does not exist") BAD_REQUEST) ∧
  (updateUser "u404" patch Sample.identity Sample.env Sample.world).1
    = inl (HttpException (RespMessage "Record to update or delete does not exist.")
                         BAD_REQUEST) ∧
  (deleteUser "u404" Sample.identity Sample.env Sample.world).1
    = inl (HttpException (RespMessage "Record to update or delete does not exist.")
                         BAD_REQUEST) ∧
  (getProfile Sample.identity Sample.env_store_down Sample.world).1
    = inl (HttpException (RespMessage "connection lost") BAD_REQUEST) ∧
  status_code BAD_REQUEST = 400 ∧ status_code NOT_FOUND = 404.
Proof. vm_compute. repeat split. Qed.

(** C6. [registerUser] answers [CONFLICT] when the store reports the
    duplicate key, be it because the email is already held or because the
    store says so, and [INTERNAL_SERVER_ERROR] on every other failure of
    the store. *)
Theorem register_conflict_only_on_duplicate (registerDto : RegisterDto.t)
    (res : Response) (env : Env) (w : World) :
  (store_fault env = None →
   existsb (has_email (RegisterDto.email registerDto)) (db w) = true →
   (register registerDto res env w).1
     = inl (HttpException (RespString "The email is already registered") CONFLICT)) ∧
  (∀ message,
     store_fault env = Some (KnownRequestError "P2002" message) →
     (register registerDto res env w).1
       = inl (HttpException (RespString "The email is already registered") CONFLICT)) ∧
  (∀ failure,
     store_fault env = Some failure → is_P2002 failure = false →
     (register registerDto res env w).1
       = inl (HttpException
                (RespString ("Internal server error "
                             +:+ error_message (PrismaError failure)))
                INTERNAL_SERVER_ERROR)).
Proof.
  repeat split.
  - intros Hstore Hheld.
    destruct (register registerDto res env w) as [r w'] eqn:Hrun.
    unfold_service Hrun. rewrite Hstore, Hheld in Hrun.
    exec_service Hrun; simplify_eq; reflexivity.
  - intros message Hstore.
    destruct (register registerDto res env w) as [r w'] eqn:Hrun.
    unfold_service Hrun. rewrite Hstore in Hrun.
    exec_service Hrun; simplify_eq; reflexivity.
  - intros failure Hstore Hother.
    destruct (register registerDto res env w) as [r w'] eqn:Hrun.
    unfold_service Hrun. rewrite Hstore in Hrun.
    destruct failure as [code message|message]; cbn in Hother;
      exec_service Hrun; simplify_eq; try reflexivity.
    unfold is_duplicate_key in *. congruence.
Qed.

(** C7, as the code has it. For login, register, list, update and delete,
    which record through [logOperation], the outcome of the call and the
    store it leaves are the same whether or not the log sink or the
    gateway fails. *)
Theorem audit_failure_contained (op : Operation) (env env' : Env) (w : World) :
  is_view op = false →
  same_but_audit env env' →
  (serve op env w).1 = (serve op env' w).1 ∧
  db (serve op env w).2 = db (serve op env' w).2.
Proof.
  intros Hview (Hsecret & Hnow & Hid & Hstore).
  destruct (serve op env w) as [r1 w1] eqn:Hrun1.
  destruct (serve op env' w) as [r2 w2] eqn:Hrun2.
  cbn [fst snd].
  destruct op; try discriminate Hview;
    unfold_service Hrun1; unfold_service Hrun2;
    rewrite <- ?Hsecret, <- ?Hnow, <- ?Hid, <- ?Hstore in Hrun2;
    exec_service Hrun1; exec_service Hrun2; simplify_eq;
    rewrite ?Hsecret, ?Hnow, ?Hid; split; reflexivity.
Qed.

Lemma user_object_fields (u : User.t) :
  user_object u = list_to_map (stored_fields u).
Proof. reflexivity. Qed.

Lemma userWithoutPassword_fields (u : User.t) :
  userWithoutPassword (user_object u) = list_to_map (public_fields u).
Proof. reflexivity. Qed.

(** C10. What a successful call answers with.  [getProfile] answers with
    the record of the caller's id, and [updateUser] with the updated
    record of the requested id, each as exactly the four fields [id],
    [email], [first_name], [last_name], with no [password].
    [deleteUser] answers with the record of the requested id and
    [listAllUsers] with every record of the store, in order, each as it is
    stored, [password] hash included. *)
Theorem password_in_replies (op : Operation) (env : Env) (w : World)
    (reply : Reply) (res : option Response) :
  (serve op env w).1 = inr (reply, res) →
  match op with
  | OpGetProfile caller =>
      ∃ u, List.find (has_id (JwtPayload.id caller)) (db w) = Some u ∧
           reply = ReplyUser (list_to_map (public_fields u)) ∧
           (list_to_map (public_fields u) : gmap string JsValue) !! "password"
           = None
  | OpUpdateUser id updateDto _ =>
      ∃ u, List.find (has_id id) (db w) = Some u ∧
           let updated :=
             User.mk (User.id u)
               (default (User.email u) (UpdateUserDto.email updateDto))
               (User.password u)
               (match UpdateUserDto.first_name updateDto with
                | Some name => Some name
                | None => User.first_name u
                end)
               (match UpdateUserDto.last_name updateDto with
                | Some name => Some name
                | None => User.last_name u
                end) in
           reply = ReplyMessageUser "User updated!"
                     (list_to_map (public_fields updated)) ∧
           (list_to_map (public_fields updated) : gmap string JsValue)
             !! "password" = None
  | OpDeleteUser id _ =>
      ∃ u, List.find (has_id id) (db w) = Some u ∧
           reply = ReplyMessageUser "User deleted!"
                     (list_to_map (stored_fields u)) ∧
           (list_to_map (stored_fields u) : gmap string JsValue) !! "password"
           = Some (JsStr (User.password u))
  | OpGetAllUsers _ =>
      reply = ReplyUsers ((λ u, list_to_map (stored_fields u)) <$> db w) ∧
      ∀ u, u ∈ db w →
           (list_to_map (stored_fields u) : gmap string JsValue) !! "password"
           = Some (JsStr (User.password u))
  | OpLogin _ _ | OpRegister _ _ => True
  end.
Proof.
  destruct (serve op env w) as [r w'] eqn:Hrun.
  cbn [fst snd]. intros ->.
  destruct op; [exact I|exact I|..]; run_service Hrun; simplify_eq.
  - eexists; split; [reflexivity|].
    split; [by rewrite userWithoutPassword_fields|reflexivity].
  - eexists; split; [reflexivity|]. cbv zeta.
    split; [by rewrite userWithoutPassword_fields|reflexivity].
  - eexists; split; [reflexivity|].
    split; [by rewrite user_object_fields|reflexivity].
  - split; [reflexivity|intros u _; reflexivity].
Qed.


(** ** More on the service *)

Lemma store_calls_audit_events (message : string) (env : Env) :
  store_calls (audit_events message env) = [].
Proof.
  unfold audit_events.
  destruct (logger_fault env), (gateway_fault env); reflexivity.
Qed.

Lemma store_calls_app (l k : list Event) :
  store_calls (l ++ k) = (store_calls l ++ store_calls k)%list.
Proof. apply omap_app. Qed.

(** X1. Whatever goes wrong in login, getProfile, update, delete or list
    reaches the caller as status 400 with an object [{ message }];
    registerUser answers 409 or 500 instead, never 400. *)
Theorem failure_statuses (op : Operation) (env : Env) (w : World) (e : Thrown) :
  (serve op env w).1 = inl e →
  match op with
  | OpRegister _ _ =>
      e = HttpException (RespString "The email is already registered") CONFLICT ∨
      ∃ reason,
        e = HttpException (RespString ("Internal server error " +:+ reason))
                          INTERNAL_SERVER_ERROR
  | _ => ∃ message, e = HttpException (RespMessage message) BAD_REQUEST
  end.
Proof.
  destruct (serve op env w) as [r w'] eqn:Hrun.
  cbn [fst snd]. intros ->.
  destruct op; run_service Hrun; simplify_eq; eauto.
Qed.

(** X2. The store is changed by a successful register, update or delete
    only: a call that fails, and any login, getProfile or list, leaves
    every record as it was. *)
Theorem store_untouched (op : Operation) (env : Env) (w : World) :
  is_write op = false ∨ (∃ e, (serve op env w).1 = inl e) →
  db (serve op env w).2 = db w.
Proof.
  destruct (serve op env w) as [r w'] eqn:Hrun.
  cbn [fst snd]. intros Hcase.
  destruct op; run_service Hrun; simplify_eq; try reflexivity;
    destruct Hcase as [Hread|[e He]]; discriminate.
Qed.

(** X3. A login, register, getProfile, update or list that fails has made
    its one store call and nothing else: no log line, no message to the
    hub, nothing on stderr. *)
Theorem failure_leaves_no_audit (op : Operation) (env : Env) (w : World)
    (e : Thrown) :
  (∀ id user, op ≠ OpDeleteUser id user) →
  (serve op env w).1 = inl e →
  events_of (serve op) env w = [StoreCommitted (store_op_of op)] ∨
  events_of (serve op) env w = [StoreRejected (store_op_of op)].
Proof.
  intros Hnot. unfold events_of.
  destruct (serve op env w) as [r w'] eqn:Hrun.
  cbn [fst snd]. intros ->.
  destruct op; try (exfalso; eapply Hnot; reflexivity);
    run_service Hrun; simplify_eq; new_events; auto.
Qed.

(** X4. Every call of the service, whatever its outcome, calls the store
    exactly once, with the call of its operation. *)
Theorem one_store_call (op : Operation) (env : Env) (w : World) :
  store_calls (events_of (serve op) env w) = [store_op_of op].
Proof.
  unfold events_of.
  destruct (serve op env w) as [r w'] eqn:Hrun. cbn [fst snd].
  destruct op; run_service Hrun; simplify_eq; new_events;
    rewrite ?store_calls_app, ?store_calls_audit_events; reflexivity.
Qed.

(** X5. A login that the store answered is refused with
    ["User or password invalid"] when no record has the email and with
    ["Incorrect password"] when one has it but the password does not
    match: the two refusals tell the caller whether the email exists. *)
Theorem login_refusals (loginDto : LoginDto.t) (res : Response) (env : Env)
    (w : World) :
  store_fault env = None →
  (List.find (has_email (LoginDto.email loginDto)) (db w) = None →
   (loginUser hs256 bcrypt_compare refresh_ttl loginDto res env w).1
   = inl (HttpException (RespMessage "User or password invalid") BAD_REQUEST)) ∧
  (∀ u,
     List.find (has_email (LoginDto.email loginDto)) (db w) = Some u →
     bcrypt_compare (LoginDto.password loginDto) (User.password u) = false →
     (loginUser hs256 bcrypt_compare refresh_ttl loginDto res env w).1
     = inl (HttpException (RespMessage "Incorrect password") BAD_REQUEST)).
Proof.
  intros Hstore.
  destruct (loginUser hs256 bcrypt_compare refresh_ttl loginDto res env w)
    as [r w'] eqn:Hrun.
  cbn [fst snd]. unfold_service Hrun. rewrite Hstore in Hrun.
  split.
  - intros Hnone. rewrite Hnone in Hrun. exec_service Hrun; simplify_eq.
    reflexivity.
  - intros u Hsome Hwrong. rewrite Hsome, Hwrong in Hrun.
    exec_service Hrun; simplify_eq. reflexivity.
Qed.


Lemma find_app_fresh (f : User.t → bool) (users : list User.t) (u : User.t) :
  existsb f users = false → f u = true →
  List.find f (users ++ [u]) = Some u.
Proof.
  intros Hfresh Hu. induction users as [|v users IH]; cbn in *.
  - by rewrite Hu.
  - apply orb_false_iff in Hfresh as [Hv Hrest]. rewrite Hv. by apply IH.
Qed.

Lemma existsb_app_held (f : User.t → bool) (users : list User.t) (u : User.t) :
  f u = true → existsb f (users ++ [u]) = true.
Proof.
  intros Hu. rewrite existsb_app. cbn. rewrite Hu.
  by rewrite orb_true_r.
Qed.

Lemma find_filter_out (id : string) (users : list User.t) :
  List.find (has_id id) (List.filter (λ u, negb (has_id id u)) users) = None.
Proof.
  induction users as [|v users IH]; [reflexivity|]. cbn.
  destruct (has_id id v) eqn:Hv; cbn; [exact IH|]. by rewrite Hv.
Qed.

Lemma has_id_true (id : string) (u : User.t) :
  has_id id u = true ↔ User.id u = id.
Proof. unfold has_id. apply bool_decide_eq_true. Qed.

Lemma find_replace_user (id : string) (user u : User.t) (users : list User.t) :
  List.find (has_id id) users = Some u → User.id user = id →
  List.find (has_id id) (prisma.replace_user user users) = Some user.
Proof.
  intros Hfind Hid. unfold prisma.replace_user. rewrite Hid.
  induction users as [|v users IH]; [discriminate|]. cbn in *.
  destruct (has_id id v) eqn:Hv.
  - assert (has_id id user = true) as -> by by apply has_id_true.
    reflexivity.
  - rewrite Hv. by apply IH.
Qed.

Lemma replace_user_ids (user : User.t) (users : list User.t) :
  List.map User.id (prisma.replace_user user users) = List.map User.id users.
Proof.
  unfold prisma.replace_user. induction users as [|v users IH]; [reflexivity|].
  cbn. rewrite IH. f_equal.
  destruct (has_id (User.id user) v) eqn:Hv; [|reflexivity].
  symmetry. by apply has_id_true.
Qed.

(** X6. When the store is up and holds no record with the email,
    registerUser succeeds: the store gains exactly one record, last, whose
    password is the bcrypt hash (cost 10) of the submitted one and whose
    empty names are stored as [null]; the reply describes that record and
    has no [password] field. *)
Theorem register_stores_hash (registerDto : RegisterDto.t) (res : Response)
    (env : Env) (w : World) :
  store_fault env = None →
  existsb (has_email (RegisterDto.email registerDto)) (db w) = false →
  let newUser :=
    User.mk (new_id env) (RegisterDto.email registerDto)
            (bcrypt_hash (RegisterDto.password registerDto) 10)
            (or_null (RegisterDto.first_name registerDto))
            (or_null (RegisterDto.last_name registerDto)) in
  (∃ res',
     (register registerDto res env w).1
     = inr (ReplyMessageUser "Successful register!" (registered_object newUser),
            res')) ∧
  db (register registerDto res env w).2 = (db w ++ [newUser])%list ∧
  registered_object newUser !! "password" = None.
Proof.
  intros Hstore Hfree newUser.
  destruct (register registerDto res env w) as [r w'] eqn:Hrun.
  cbn [fst snd]. unfold_service Hrun. rewrite Hstore, Hfree in Hrun.
  exec_service Hrun; simplify_eq.
  split; [eexists; reflexivity|]. split; [reflexivity|].
  unfold registered_object. by simplify_map_eq.
Qed.

Lemma register_success_inv (registerDto : RegisterDto.t) (res : Response)
    (env : Env) (w : World) (r : Reply * Response) :
  (register registerDto res env w).1 = inr r →
  existsb (has_email (RegisterDto.email registerDto)) (db w) = false ∧
  db (register registerDto res env w).2
  = (db w ++ [User.mk (new_id env) (RegisterDto.email registerDto)
                (bcrypt_hash (RegisterDto.password registerDto) 10)
                (or_null (RegisterDto.first_name registerDto))
                (or_null (RegisterDto.last_name registerDto))])%list.
Proof.
  destruct (register registerDto res env w) as [r' w'] eqn:Hrun.
  cbn [fst snd]. intros ->.
  run_service Hrun; simplify_eq. split; reflexivity.
Qed.

(** X7. Register, then log in: once registerUser has succeeded, a login
    with the same email and password succeeds on the store it left,
    provided bcrypt recognises the password it hashed. *)
Theorem register_then_login (registerDto : RegisterDto.t) (res res2 : Response)
    (env env2 : Env) (w : World) (r : Reply * Response) :
  bcrypt_compare (RegisterDto.password registerDto)
                 (bcrypt_hash (RegisterDto.password registerDto) 10) = true →
  (register registerDto res env w).1 = inr r →
  store_fault env2 = None →
  ∃ res2',
    (loginUser hs256 bcrypt_compare refresh_ttl
       (LoginDto.mk (RegisterDto.email registerDto)
                    (RegisterDto.password registerDto))
       res2 env2 (register registerDto res env w).2).1
    = inr (ReplyLogin "Successful login!" (RegisterDto.email registerDto), res2').
Proof.
  intros Hbcrypt Hok Hstore2.
  apply register_success_inv in Hok as [Hfree Hdb].
  revert Hdb. generalize (register registerDto res env w).2. intros w1 Hdb.
  destruct (loginUser _ _ _ _ res2 env2 w1) as [r2 w2] eqn:Hrun.
  cbn [fst snd]. unfold_service Hrun.
  rewrite Hstore2, Hdb in Hrun. cbn [LoginDto.email LoginDto.password] in Hrun.
  rewrite find_app_fresh in Hrun;
    [|exact Hfree|by apply bool_decide_eq_true_2].
  cbn [User.password User.email] in Hrun. rewrite Hbcrypt in Hrun.
  exec_service Hrun; simplify_eq. eexists; reflexivity.
Qed.

(** X8. Register twice: once registerUser has succeeded, a second
    registration with the same email is refused with 409 for as long as the
    store answers, whatever else the second request carries. *)
Theorem register_twice_conflicts (registerDto again : RegisterDto.t)
    (res res2 : Response) (env env2 : Env) (w : World) (r : Reply * Response) :
  (register registerDto res env w).1 = inr r →
  RegisterDto.email again = RegisterDto.email registerDto →
  store_fault env2 = None →
  (register again res2 env2 (register registerDto res env w).2).1
  = inl (HttpException (RespString "The email is already registered") CONFLICT).
Proof.
  intros Hok Hsame Hstore2.
  apply register_success_inv in Hok as [Hfree Hdb].
  revert Hdb. generalize (register registerDto res env w).2. intros w1 Hdb.
  destruct (register again res2 env2 w1) as [r2 w2] eqn:Hrun.
  cbn [fst snd]. unfold_service Hrun.
  rewrite Hstore2, Hdb, Hsame in Hrun.
  rewrite existsb_app_held in Hrun by by apply bool_decide_eq_true_2.
  exec_service Hrun; simplify_eq. reflexivity.
Qed.


Lemma deleteUser_success_inv (id : string) (req : JwtPayload.t) (env : Env)
    (w : World) (r : Reply) :
  (deleteUser id req env w).1 = inr r →
  db (deleteUser id req env w).2
  = List.filter (λ u, negb (has_id id u)) (db w).
Proof.
  destruct (deleteUser id req env w) as [r' w'] eqn:Hrun.
  cbn [fst snd]. intros ->.
  run_service Hrun; simplify_eq. reflexivity.
Qed.

(** X9. Delete, then ask again: once deleteUser has succeeded for an id,
    the store it left answers getProfile, updateUser and a second deleteUser
    for that id with 400, while every record with another id is still
    there. *)
Theorem deleted_record_is_gone (id : string) (req : JwtPayload.t)
    (env env2 : Env) (w : World) (r : Reply) :
  (deleteUser id req env w).1 = inr r →
  store_fault env2 = None →
  (∀ caller, JwtPayload.id caller = id →
     (getProfile caller env2 (deleteUser id req env w).2).1
     = inl (HttpException (RespMessage "This user does not exist") BAD_REQUEST)) ∧
  (∀ updateDto caller,
     (updateUser id updateDto caller env2 (deleteUser id req env w).2).1
     = inl (HttpException (RespMessage "Record to update or delete does not exist.")
                          BAD_REQUEST)) ∧
  (∀ caller,
     (deleteUser id caller env2 (deleteUser id req env w).2).1
     = inl (HttpException (RespMessage "Record to update or delete does not exist.")
                          BAD_REQUEST)) ∧
  (∀ u, u ∈ db w → User.id u ≠ id → u ∈ db (deleteUser id req env w).2).
Proof.
  intros Hok Hstore2.
  pose proof (deleteUser_success_inv _ _ _ _ _ Hok) as Hdb.
  revert Hdb. generalize (deleteUser id req env w).2. intros w1 Hdb.
  assert (Hgone : List.find (has_id id) (db w1) = None)
    by (rewrite Hdb; apply find_filter_out).
  repeat split.
  - intros caller Hcaller.
    destruct (getProfile caller env2 w1) as [r2 w2] eqn:Hrun.
    unfold_service Hrun. rewrite Hstore2, Hcaller, Hgone in Hrun.
    exec_service Hrun; simplify_eq. reflexivity.
  - intros updateDto caller.
    destruct (updateUser id updateDto caller env2 w1) as [r2 w2] eqn:Hrun.
    unfold_service Hrun. rewrite Hstore2, Hgone in Hrun.
    exec_service Hrun; simplify_eq. reflexivity.
  - intros caller.
    destruct (deleteUser id caller env2 w1) as [r2 w2] eqn:Hrun.
    unfold_service Hrun. exec_service Hrun; simplify_eq. reflexivity.
  - intros u Hu Hother. rewrite Hdb.
    apply list_elem_of_In, filter_In. split; [by apply list_elem_of_In|].
    apply negb_true_iff, bool_decide_eq_false_2. exact Hother.
Qed.

Lemma updateUser_success_inv (id : string) (updateDto : UpdateUserDto.t)
    (req : JwtPayload.t) (env : Env) (w : World) (r : Reply) :
  (updateUser id updateDto req env w).1 = inr r →
  ∃ u, List.find (has_id id) (db w) = Some u ∧
       r = ReplyMessageUser "User updated!"
             (userWithoutPassword (user_object (prisma.apply_update updateDto u))) ∧
       db (updateUser id updateDto req env w).2
       = prisma.replace_user (prisma.apply_update updateDto u) (db w).
Proof.
  destruct (updateUser id updateDto req env w) as [r' w'] eqn:Hrun.
  cbn [fst snd]. intros ->.
  run_service Hrun; simplify_eq. eexists. repeat split.
Qed.

(** X10. Update, then read: once updateUser has succeeded for an id, a
    getProfile for that id on the store it left answers with the very
    object the update returned, when store and log sink are up. *)
Theorem update_then_profile (id : string) (updateDto : UpdateUserDto.t)
    (req caller : JwtPayload.t) (env env2 : Env) (w : World)
    (message : string) (updated : gmap string JsValue) :
  (updateUser id updateDto req env w).1 = inr (ReplyMessageUser message updated) →
  JwtPayload.id caller = id →
  store_fault env2 = None → logger_fault env2 = None →
  (getProfile caller env2 (updateUser id updateDto req env w).2).1
  = inr (ReplyUser updated).
Proof.
  intros Hok Hcaller Hstore2 Hlogger2.
  destruct (updateUser_success_inv _ _ _ _ _ _ Hok) as (u & Hfind & Hreply & Hdb).
  revert Hdb. generalize (updateUser id updateDto req env w).2. intros w1 Hdb.
  simplify_eq.
  destruct (getProfile caller env2 w1) as [r2 w2] eqn:Hrun.
  unfold_service Hrun. rewrite Hstore2, Hdb in Hrun.
  rewrite (find_replace_user _ _ _ _ Hfind) in Hrun
    by (cbn; apply has_id_true; eapply (find_some _ _ Hfind)).
  cbn [fst snd db trace] in Hrun. rewrite logger_info_run, Hlogger2 in Hrun.
  exec_service Hrun; simplify_eq. reflexivity.
Qed.

(** X11. updateUser never adds or removes a record and never changes an
    id: whatever its outcome, the ids held by the store are the same, in
    the same order. *)
Theorem update_keeps_ids (id : string) (updateDto : UpdateUserDto.t)
    (req : JwtPayload.t) (env : Env) (w : World) :
  List.map User.id (db (updateUser id updateDto req env w).2)
  = List.map User.id (db w).
Proof.
  destruct (updateUser id updateDto req env w) as [r w'] eqn:Hrun.
  cbn [fst snd].
  run_service Hrun; simplify_eq; cbn [db]; try reflexivity.
  apply replace_user_ids.
Qed.

(** ** More on the guard and the controller *)

(** X12. The guard lets a request through only with a token that is
    present, not empty and verified under the secret at the current time;
    it then answers [true], attaches exactly the verified identity as
    [request.user] and leaves the cookies alone. *)
Theorem guard_accepts_only_verified (request request' : Request) (env : Env)
    (w : World) (allowed : bool) :
  (canActivate hs256 request env w).1 = inr (allowed, request') →
  allowed = true ∧ cookies request' = cookies request ∧
  ∃ token identity,
    access_token request = Some token ∧ falsy token = false ∧
    verify hs256 (jwt_secret env) (now env) token = inr identity ∧
    user request' = Some identity.
Proof.
  intros Hok.
  destruct (access_token request) as [token|] eqn:Htoken.
  - rewrite (canActivate_verified _ _ _ _ Htoken) in Hok.
    destruct (verify hs256 (jwt_secret env) (now env) token) as [|identity] eqn:Hv;
      [discriminate|].
    simplify_eq. repeat split. exists token, identity. repeat split; try done.
    destruct token as [raw|t]; [|reflexivity].
    cbn in Hv. discriminate.
  - unfold canActivate in Hok. rewrite Htoken in Hok. discriminate.
Qed.

Lemma UseGuards_refused {A} (handler : JwtPayload.t → M A) (request : Request)
    (env : Env) (w : World) (e : Thrown) :
  (canActivate hs256 request env w).1 = inl e →
  UseGuards hs256 handler request env w = (inl e, w).
Proof.
  intros Hrefused. unfold UseGuards, bind.
  pose proof (canActivate_world request env w) as Hworld.
  destruct (canActivate hs256 request env w) as [r w']. cbn in *.
  by subst.
Qed.

Lemma UseGuards_passed {A} (handler : JwtPayload.t → M A) (request : Request)
    (env : Env) (w : World) (token : CookieValue) (identity : JwtPayload.t) :
  access_token request = Some token →
  verify hs256 (jwt_secret env) (now env) token = inr identity →
  UseGuards hs256 handler request env w = handler identity env w.
Proof.
  intros Htoken Hverified. unfold UseGuards, bind.
  pose proof (canActivate_world request env w) as Hworld.
  pose proof (canActivate_verified request env w token Htoken) as Hresult.
  rewrite Hverified in Hresult.
  destruct (canActivate hs256 request env w) as [r w']. cbn in *.
  by subst.
Qed.

(** X13. A request the guard refuses never reaches the service: the four
    guarded routes answer with the guard's exception and leave store and
    trace untouched, so nothing is read, logged or broadcast, not even by
    the delete route. *)
Theorem guarded_routes_refuse_first (request : Request) (env : Env) (w : World)
    (e : Thrown) (id : string) (updateDto : UpdateUserDto.t) :
  (canActivate hs256 request env w).1 = inl e →
  controller_getProfile hs256 request env w = (inl e, w) ∧
  controller_updateUser hs256 id updateDto request env w = (inl e, w) ∧
  controller_deleteUser hs256 id request env w = (inl e, w) ∧
  controller_getAllUsers hs256 request env w = (inl e, w).
Proof.
  intros Hrefused.
  unfold controller_getProfile, controller_updateUser, controller_deleteUser,
    controller_getAllUsers.
  repeat split; by apply UseGuards_refused.
Qed.

(** X14. Behind the guard the caller is whoever the token names: with a
    token that verifies, each guarded route does what the service method
    does for the token's identity, whatever the store says about that
    identity. *)
Theorem guarded_routes_run_as_token (request : Request) (env : Env) (w : World)
    (token : CookieValue) (identity : JwtPayload.t) (id : string)
    (updateDto : UpdateUserDto.t) :
  access_token request = Some token →
  verify hs256 (jwt_secret env) (now env) token = inr identity →
  controller_getProfile hs256 request env w = getProfile identity env w ∧
  controller_updateUser hs256 id updateDto request env w
  = updateUser id updateDto identity env w ∧
  controller_deleteUser hs256 id request env w = deleteUser id identity env w ∧
  controller_getAllUsers hs256 request env w = listAllUsers identity env w.
Proof.
  intros Htoken Hverified.
  unfold controller_getProfile, controller_updateUser, controller_deleteUser,
    controller_getAllUsers.
  repeat split; by eapply UseGuards_passed.
Qed.

(** X15. The delete route checks no ownership: any caller with a token that
    verifies deletes any record the store holds, their own or not, and gets
    that record back. *)
Theorem any_caller_deletes_any_record (request : Request) (env : Env)
    (w : World) (token : CookieValue) (identity : JwtPayload.t) (id : string)
    (u : User.t) :
  access_token request = Some token →
  verify hs256 (jwt_secret env) (now env) token = inr identity →
  store_fault env = None →
  List.find (has_id id) (db w) = Some u →
  (controller_deleteUser hs256 id request env w).1
  = inr (ReplyMessageUser "User deleted!" (user_object u)) ∧
  List.find (has_id id) (db (controller_deleteUser hs256 id request env w).2) = None.
Proof.
  intros Htoken Hverified Hstore Hheld.
  unfold controller_deleteUser.
  rewrite (UseGuards_passed _ _ _ _ _ _ Htoken Hverified).
  destruct (deleteUser id identity env w) as [r w'] eqn:Hrun. cbn [fst snd].
  unfold_service Hrun. exec_service Hrun; simplify_eq.
  split; [reflexivity|]. apply find_filter_out.
Qed.

(** X16. The cookie extractor of [JwtStrategy] and the guard agree on what
    a missing token is: the extractor yields [null] exactly when the guard
    refuses with ["Access token not found"], be the cookies absent, the
    cookie absent or the cookie empty. *)
Theorem extractor_agrees_with_guard (request : Request) (env : Env) (w : World) :
  jwtFromRequest (Some request) = None ↔
  (canActivate hs256 request env w).1
  = inl (UnauthorizedException "Access token not found").
Proof.
  unfold jwtFromRequest. cbn [mbind option_bind].
  destruct (access_token request) as [token|] eqn:Htoken.
  - rewrite (canActivate_verified _ _ _ _ Htoken).
    destruct (falsy token) eqn:Hfalsy.
    + split; [intros _|reflexivity].
      destruct token as [raw|t]; [reflexivity|discriminate].
    + split; [discriminate|].
      destruct (verify hs256 (jwt_secret env) (now env) token); discriminate.
  - unfold canActivate. rewrite Htoken. split; reflexivity.
Qed.

Lemma receive_logout (res : Response) (jar : gmap string CookieValue) :
  receive (logout res) jar
  = delete "refresh_token" (delete "access_token" (receive res jar)).
Proof.
  unfold logout, res_status_json, res_clearCookie, receive. cbn.
  rewrite <- app_assoc, foldl_app. reflexivity.
Qed.

(** X17. Logout on any response: whatever the response already carried,
    even a login's cookies, the jar that receives it holds neither
    [access_token] nor [refresh_token], every other cookie is as it would
    have been without the logout, and the status is 200. *)
Theorem logout_clears_any_response (res : Response)
    (jar : gmap string CookieValue) :
  res_status (logout res) = OK ∧
  receive (logout res) jar !! "access_token" = None ∧
  receive (logout res) jar !! "refresh_token" = None ∧
  (∀ name, name ≠ "access_token" → name ≠ "refresh_token" →
     receive (logout res) jar !! name = receive res jar !! name).
Proof.
  rewrite receive_logout. repeat split.
  - rewrite lookup_delete_ne by discriminate. apply lookup_delete_eq.
  - apply lookup_delete_eq.
  - intros name Ha Hr. by rewrite !lookup_delete_ne.
Qed.

(** X18. After a logout the next guarded request of that client is refused
    as carrying no token, whatever its jar held before. *)
Theorem logout_then_guard_refuses (res : Response)
    (jar : gmap string CookieValue) (env : Env) (w : World) :
  (canActivate hs256 (mkRequest (Some (receive (logout res) jar)) None) env w).1
  = inl (UnauthorizedException "Access token not found").
Proof.
  assert (Hnone : access_token (mkRequest (Some (receive (logout res) jar)) None)
                  = None).
  { unfold access_token. cbn [cookies mbind option_bind].
    rewrite receive_logout, lookup_delete_ne by discriminate.
    apply lookup_delete_eq. }
  unfold canActivate. rewrite Hnone. reflexivity.
Qed.

Lemma verify_issued (secret : string) (issued_at time : Z)
    (identity : JwtPayload.t) :
  time < issued_at + expiresIn →
  verify hs256 secret time (Jwt (issue hs256 refresh_ttl secret issued_at identity).1)
  = inr identity.
Proof.
  intros Htime. unfold verify, issue, sign; cbn.
  rewrite bool_decide_eq_true_2 by reflexivity.
  rewrite bool_decide_eq_false_2 by lia. reflexivity.
Qed.

(** At the instant of expiry the token is already refused. *)
Lemma verify_at_expiry (secret : string) (issued_at : Z)
    (identity : JwtPayload.t) :
  verify hs256 secret (issued_at + expiresIn)
    (Jwt (issue hs256 refresh_ttl secret issued_at identity).1)
  = inl ExpiredToken.
Proof.
  unfold verify, issue, sign; cbn.
  rewrite bool_decide_eq_true_2 by reflexivity.
  rewrite bool_decide_eq_true_2 by lia. reflexivity.
Qed.

Lemma loginUser_success_inv (loginDto : LoginDto.t) (res res' : Response)
    (env : Env) (w : World) (reply : Reply) :
  (loginUser hs256 bcrypt_compare refresh_ttl loginDto res env w).1
  = inr (reply, res') →
  ∃ u, List.find (has_email (LoginDto.email loginDto)) (db w) = Some u ∧
       bcrypt_compare (LoginDto.password loginDto) (User.password u) = true ∧
       reply = ReplyLogin "Successful login!" (User.email u) ∧
       res' = res_cookie "refresh_token"
                (Jwt (issue hs256 refresh_ttl (jwt_secret env) (now env)
                        (identity_of u)).2) true true
                (res_cookie "access_token"
                   (Jwt (issue hs256 refresh_ttl (jwt_secret env) (now env)
                           (identity_of u)).1) true true res).
Proof.
  destruct (loginUser hs256 bcrypt_compare refresh_ttl loginDto res env w)
    as [r w'] eqn:Hrun.
  cbn [fst snd]. intros ->.
  run_service Hrun; simplify_eq. eexists. repeat split; try done.
  by apply negb_false_iff.
Qed.

(** X19. Log in, then call a guarded route: the cookies a successful login
    wrote, once in the client's jar, pass the guard as the logged-in user
    at any time before the token expires, fifteen minutes after the login,
    on any store, under the same secret (with [setTokens] as modelled). *)
Theorem login_cookie_passes_guard (loginDto : LoginDto.t) (res res' : Response)
    (env env2 : Env) (w w2 : World) (reply : Reply)
    (jar : gmap string CookieValue) :
  (loginUser hs256 bcrypt_compare refresh_ttl loginDto res env w).1
  = inr (reply, res') →
  jwt_secret env2 = jwt_secret env →
  now env2 < now env + 15 * 60 →
  ∃ u, List.find (has_email (LoginDto.email loginDto)) (db w) = Some u ∧
       decision (canActivate hs256 (mkRequest (Some (receive res' jar)) None) env2 w2)
       = inr (true, Some (identity_of u)).
Proof.
  intros Hok Hsecret Htime.
  apply loginUser_success_inv in Hok as (u & Hfind & _ & _ & ->).
  exists u. split; [exact Hfind|].
  set (tokens := issue hs256 refresh_ttl (jwt_secret env) (now env) (identity_of u)).
  assert (Htoken : access_token
                     (mkRequest
                        (Some (receive
                                 (res_cookie "refresh_token" (Jwt tokens.2) true true
                                    (res_cookie "access_token" (Jwt tokens.1) true true res))
                                 jar)) None)
                   = Some (Jwt tokens.1)).
  { unfold access_token, receive, res_cookie. cbn.
    rewrite <- app_assoc, foldl_app. cbn.
    rewrite lookup_insert_ne by discriminate. apply lookup_insert_eq. }
  unfold decision. rewrite (canActivate_verified _ _ _ _ Htoken).
  rewrite Hsecret. unfold tokens. rewrite verify_issued by exact Htime.
  reflexivity.
Qed.

(** X20. With the log sink up, every successful call writes exactly one
    log line, the profile view included; for the operations that notify,
    the message handed to the hub is that same line. *)
Theorem success_logs_once (op : Operation) (env : Env) (w : World)
    (reply : Reply * option Response) :
  (serve op env w).1 = inr reply →
  logger_fault env = None →
  ∃ line,
    log_lines (events_of (serve op) env w) = [line] ∧
    (is_view op = false → broadcasts (events_of (serve op) env w) = [line]).
Proof.
  unfold events_of.
  destruct (serve op env w) as [r w'] eqn:Hrun.
  cbn [fst snd]. intros -> Hlogger.
  destruct op; run_service Hrun; simplify_eq; new_events;
    unfold audit_events; rewrite ?Hlogger;
    destruct (gateway_fault env); eexists; (split; [reflexivity|]);
    first [intros _; reflexivity | discriminate].
Qed.

End Properties.

(** * The properties at the sample inputs *)

Lemma verify_issue_access_witness :
  verify Sample.hs256 "s3cret" 600
    (Jwt (issue Sample.hs256 Sample.refresh_ttl "s3cret" 500 Sample.identity).1)
  = inr Sample.identity ∧
  verify Sample.hs256 "s3cret" 2000
    (Jwt (issue Sample.hs256 Sample.refresh_ttl "s3cret" 500 Sample.identity).1)
  = inl ExpiredToken.
Proof.
  pose proof (verify_issue_access Sample.hs256 Sample.refresh_ttl "s3cret" 500 600
                Sample.identity) as [Hbefore _].
  pose proof (verify_issue_access Sample.hs256 Sample.refresh_ttl "s3cret" 500 2000
                Sample.identity) as [_ Hafter].
  split; [apply Hbefore|apply Hafter]; lia.
Defined.

(** C3, as the claim states it, fails: the guard answers a missing cookie
    and an invalid token with different exceptions. *)
Lemma guard_missing_and_invalid_differ :
  access_token Sample.no_cookie = None ∧
  verify Sample.hs256 (jwt_secret Sample.env) (now Sample.env) (Opaque "not.a.token")
  = inl InvalidToken ∧
  (canActivate Sample.hs256 Sample.no_cookie Sample.env Sample.world).1
  ≠ (canActivate Sample.hs256 Sample.bad_cookie Sample.env Sample.world).1.
Proof.
  repeat split. intros Hsame. vm_compute in Hsame. discriminate Hsame.
Qed.

Lemma guard_refuses_with_401_witness :
  (canActivate Sample.hs256 Sample.no_cookie Sample.env Sample.world).1
  = inl (HttpException (RespBody "Access token not found" "Unauthorized" 401)
                       UNAUTHORIZED) ∧
  (canActivate Sample.hs256 Sample.bad_cookie Sample.env Sample.world).1
  = inl (HttpException (RespBody "Invalid or expired token" "Unauthorized" 401)
                       UNAUTHORIZED) ∧
  (canActivate Sample.hs256 Sample.expired_cookie Sample.env Sample.world).1
  = inl (HttpException (RespBody "Invalid or expired token" "Unauthorized" 401)
                       UNAUTHORIZED).
Proof.
  split; [|split].
  - apply (proj1 (guard_refuses_with_401 Sample.hs256 Sample.no_cookie
                    Sample.env Sample.world)).
    reflexivity.
  - apply (proj2 (guard_refuses_with_401 Sample.hs256 Sample.bad_cookie
                    Sample.env Sample.world)
             (Opaque "not.a.token") InvalidToken); reflexivity.
  - apply (proj2 (guard_refuses_with_401 Sample.hs256 Sample.expired_cookie
                    Sample.env Sample.world)
             (Jwt (issue Sample.hs256 Sample.refresh_ttl "s3cret" 0 Sample.identity).1)
             ExpiredToken); reflexivity.
Defined.

Lemma guard_is_stateless_witness :
  decision (canActivate Sample.hs256 Sample.good_cookie Sample.env Sample.world)
  = inr (true, Some Sample.identity) ∧
  decision (canActivate Sample.hs256 Sample.good_cookie Sample.env Sample.empty_world)
  = inr (true, Some Sample.identity).
Proof.
  refine (proj1 (proj2 (guard_is_stateless Sample.hs256 Sample.good_cookie
                          Sample.good_cookie Sample.env Sample.env Sample.world
                          Sample.empty_world eq_refl eq_refl eq_refl))
            (Jwt (issue Sample.hs256 Sample.refresh_ttl "s3cret" 500 Sample.identity).1)
            Sample.identity _ _); reflexivity.
Defined.

Lemma one_broadcast_unless_view_witness :
  length (broadcasts
            (events_of (perform Sample.hs256 Sample.bcrypt_hash Sample.bcrypt_compare
                          Sample.refresh_ttl (OpDeleteUser "u1" Sample.identity))
                       Sample.env Sample.world)) = 1%nat ∧
  length (broadcasts
            (events_of (perform Sample.hs256 Sample.bcrypt_hash Sample.bcrypt_compare
                          Sample.refresh_ttl (OpGetProfile Sample.identity))
                       Sample.env Sample.world)) = 0%nat.
Proof.
  split.
  - eapply (one_broadcast_unless_view Sample.hs256 Sample.bcrypt_hash
              Sample.bcrypt_compare Sample.refresh_ttl
              (OpDeleteUser "u1" Sample.identity)).
    reflexivity.
  - eapply (one_broadcast_unless_view Sample.hs256 Sample.bcrypt_hash
              Sample.bcrypt_compare Sample.refresh_ttl
              (OpGetProfile Sample.identity)).
    reflexivity.
Defined.

Lemma register_conflict_only_on_duplicate_witness :
  (registerUser Sample.hs256 Sample.bcrypt_hash Sample.refresh_ttl Sample.taken
     fresh_response Sample.env Sample.world).1
  = inl (HttpException (RespString "The email is already registered") CONFLICT) ∧
  (registerUser Sample.hs256 Sample.bcrypt_hash Sample.refresh_ttl Sample.newcomer
     fresh_response
     Sample.env_store_duplicate Sample.world).1
  = inl (HttpException (RespString "The email is already registered") CONFLICT) ∧
  (registerUser Sample.hs256 Sample.bcrypt_hash Sample.refresh_ttl Sample.newcomer
     fresh_response Sample.env_store_down Sample.world).1
  = inl (HttpException (RespString "Internal server error connection lost")
                       INTERNAL_SERVER_ERROR).
Proof.
  split; [|split].
  - apply (proj1 (register_conflict_only_on_duplicate Sample.hs256 Sample.bcrypt_hash
                    Sample.refresh_ttl Sample.taken fresh_response Sample.env
                    Sample.world)); reflexivity.
  - apply (proj1 (proj2 (register_conflict_only_on_duplicate Sample.hs256
                           Sample.bcrypt_hash Sample.refresh_ttl Sample.newcomer
                           fresh_response Sample.env_store_duplicate Sample.world))
             "duplicate key"); reflexivity.
  - apply (proj2 (proj2 (register_conflict_only_on_duplicate Sample.hs256
                           Sample.bcrypt_hash Sample.refresh_ttl Sample.newcomer
                           fresh_response Sample.env_store_down Sample.world))
             (UnknownRequestError "connection lost")); reflexivity.
Defined.

(** C7, as the claim states it, fails for [getProfile]: with the log sink
    down and everything else the same, the call that succeeded fails. *)
Lemma getProfile_surfaces_logger_failure :
  same_but_audit Sample.env Sample.env_logger_down ∧
  (getProfile Sample.identity Sample.env Sample.world).1
  = inr (ReplyUser (userWithoutPassword (user_object Sample.alice))) ∧
  (getProfile Sample.identity Sample.env_logger_down Sample.world).1
  = inl (HttpException (RespMessage "EACCES: permission denied") BAD_REQUEST) ∧
  (getProfile Sample.identity Sample.env Sample.world).1
  ≠ (getProfile Sample.identity Sample.env_logger_down Sample.world).1.
Proof.
  split; [repeat split|]. split; [reflexivity|]. split; [reflexivity|].
  intros Hsame.
  apply (f_equal (λ r, match r with inl _ => false | inr _ => true end)) in Hsame.
  vm_compute in Hsame. discriminate Hsame.
Qed.

Lemma audit_failure_contained_witness :
  (perform Sample.hs256 Sample.bcrypt_hash Sample.bcrypt_compare Sample.refresh_ttl
     (OpGetAllUsers Sample.identity) Sample.env Sample.world).1
  = (perform Sample.hs256 Sample.bcrypt_hash Sample.bcrypt_compare Sample.refresh_ttl
       (OpGetAllUsers Sample.identity) Sample.env_audit_down Sample.world).1 ∧
  db (perform Sample.hs256 Sample.bcrypt_hash Sample.bcrypt_compare Sample.refresh_ttl
        (OpGetAllUsers Sample.identity) Sample.env Sample.world).2
  = db (perform Sample.hs256 Sample.bcrypt_hash Sample.bcrypt_compare Sample.refresh_ttl
          (OpGetAllUsers Sample.identity) Sample.env_audit_down Sample.world).2.
Proof.
  apply (audit_failure_contained Sample.hs256 Sample.bcrypt_hash Sample.bcrypt_compare
           Sample.refresh_ttl (OpGetAllUsers Sample.identity) Sample.env
           Sample.env_audit_down Sample.world).
  - reflexivity.
  - unfold same_but_audit. repeat split.
Defined.

Lemma password_in_replies_witness :
  ∃ u, List.find (has_id "u1") (db Sample.world) = Some u ∧
       ReplyUser (list_to_map (public_fields Sample.alice))
       = ReplyUser (list_to_map (public_fields u)) ∧
       (list_to_map (public_fields u) : gmap string JsValue) !! "password" = None.
Proof.
  apply (password_in_replies Sample.hs256 Sample.bcrypt_hash Sample.bcrypt_compare
           Sample.refresh_ttl (OpGetProfile Sample.identity) Sample.env
           Sample.world (ReplyUser (list_to_map (public_fields Sample.alice)))
           None).
  vm_compute. reflexivity.
Defined.

(** * Further properties at the sample inputs *)

Lemma failure_statuses_witness :
  ∃ message,
    HttpException (RespMessage "Incorrect password") BAD_REQUEST
    = HttpException (RespMessage message) BAD_REQUEST.
Proof.
  apply (failure_statuses Sample.hs256 Sample.bcrypt_hash Sample.bcrypt_compare
           Sample.refresh_ttl (OpLogin Sample.wrong_password fresh_response)
           Sample.env Sample.world).
  reflexivity.
Defined.

Lemma store_untouched_witness :
  db (perform Sample.hs256 Sample.bcrypt_hash Sample.bcrypt_compare
        Sample.refresh_ttl (OpGetAllUsers Sample.identity) Sample.env
        Sample.world).2
  = db Sample.world.
Proof.
  apply (store_untouched Sample.hs256 Sample.bcrypt_hash Sample.bcrypt_compare
           Sample.refresh_ttl (OpGetAllUsers Sample.identity) Sample.env
           Sample.world).
  left. reflexivity.
Defined.

Lemma failure_leaves_no_audit_witness :
  events_of (perform Sample.hs256 Sample.bcrypt_hash Sample.bcrypt_compare
               Sample.refresh_ttl (OpLogin Sample.unknown_login fresh_response))
            Sample.env Sample.world
  = [StoreCommitted FindUnique] ∨
  events_of (perform Sample.hs256 Sample.bcrypt_hash Sample.bcrypt_compare
               Sample.refresh_ttl (OpLogin Sample.unknown_login fresh_response))
            Sample.env Sample.world
  = [StoreRejected FindUnique].
Proof.
  eapply (failure_leaves_no_audit Sample.hs256 Sample.bcrypt_hash
            Sample.bcrypt_compare Sample.refresh_ttl
            (OpLogin Sample.unknown_login fresh_response) Sample.env Sample.world).
  - intros id user. discriminate.
  - reflexivity.
Defined.

Lemma login_refusals_witness :
  (loginUser Sample.hs256 Sample.bcrypt_compare Sample.refresh_ttl
     Sample.unknown_login fresh_response Sample.env Sample.world).1
  = inl (HttpException (RespMessage "User or password invalid") BAD_REQUEST) ∧
  (loginUser Sample.hs256 Sample.bcrypt_compare Sample.refresh_ttl
     Sample.wrong_password fresh_response Sample.env Sample.world).1
  = inl (HttpException (RespMessage "Incorrect password") BAD_REQUEST).
Proof.
  split.
  - apply (proj1 (login_refusals Sample.hs256 Sample.bcrypt_compare
                    Sample.refresh_ttl Sample.unknown_login fresh_response
                    Sample.env Sample.world eq_refl)).
    reflexivity.
  - apply (proj2 (login_refusals Sample.hs256 Sample.bcrypt_compare
                    Sample.refresh_ttl Sample.wrong_password fresh_response
                    Sample.env Sample.world eq_refl) Sample.alice);
      reflexivity.
Defined.

Lemma register_stores_hash_witness :
  db (registerUser Sample.hs256 Sample.bcrypt_hash Sample.refresh_ttl
        Sample.newcomer fresh_response Sample.env Sample.world).2
  = [Sample.alice; Sample.bob].
Proof.
  apply (proj1 (proj2 (register_stores_hash Sample.hs256 Sample.bcrypt_hash
                         Sample.refresh_ttl Sample.newcomer fresh_response
                         Sample.env Sample.world eq_refl eq_refl))).
Defined.

Lemma register_then_login_witness :
  ∃ res2',
    (loginUser Sample.hs256 Sample.bcrypt_compare Sample.refresh_ttl
       (LoginDto.mk "b@x.com" "An0ther!pw") fresh_response Sample.env
       (registerUser Sample.hs256 Sample.bcrypt_hash Sample.refresh_ttl
          Sample.newcomer fresh_response Sample.env Sample.world).2).1
    = inr (ReplyLogin "Successful login!" "b@x.com", res2').
Proof.
  eapply (register_then_login Sample.hs256 Sample.bcrypt_hash
            Sample.bcrypt_compare Sample.refresh_ttl Sample.newcomer
            fresh_response fresh_response Sample.env Sample.env Sample.world);
    reflexivity.
Defined.

Lemma register_twice_conflicts_witness :
  (registerUser Sample.hs256 Sample.bcrypt_hash Sample.refresh_ttl
     Sample.newcomer_again fresh_response Sample.env
     (registerUser Sample.hs256 Sample.bcrypt_hash Sample.refresh_ttl
        Sample.newcomer fresh_response Sample.env Sample.world).2).1
  = inl (HttpException (RespString "The email is already registered") CONFLICT).
Proof.
  eapply (register_twice_conflicts Sample.hs256 Sample.bcrypt_hash
            Sample.refresh_ttl Sample.newcomer Sample.newcomer_again
            fresh_response fresh_response Sample.env Sample.env Sample.world);
    reflexivity.
Defined.

Lemma deleted_record_is_gone_witness :
  (getProfile Sample.identity Sample.env
     (deleteUser "u1" Sample.identity Sample.env Sample.two_users).2).1
  = inl (HttpException (RespMessage "This user does not exist") BAD_REQUEST) ∧
  Sample.bob ∈ db (deleteUser "u1" Sample.identity Sample.env Sample.two_users).2.
Proof.
  pose proof (deleted_record_is_gone "u1" Sample.identity Sample.env Sample.env
                Sample.two_users
                (ReplyMessageUser "User deleted!" (user_object Sample.alice))
                eq_refl eq_refl) as (Hprofile & _ & _ & Hothers).
  split.
  - apply Hprofile. reflexivity.
  - apply Hothers; [|discriminate].
    apply list_elem_of_In. right. left. reflexivity.
Defined.

Lemma update_then_profile_witness :
  (getProfile Sample.identity Sample.env
     (updateUser "u1" Sample.rename Sample.identity Sample.env Sample.world).2).1
  = inr (ReplyUser (userWithoutPassword (user_object Sample.alicia))).
Proof.
  apply (update_then_profile "u1" Sample.rename Sample.identity Sample.identity
           Sample.env Sample.env Sample.world "User updated!"
           (userWithoutPassword (user_object Sample.alicia)));
    reflexivity.
Defined.

Lemma guard_accepts_only_verified_witness :
  true = true ∧
  cookies (mkRequest (cookies Sample.good_cookie) (Some Sample.identity))
  = cookies Sample.good_cookie ∧
  ∃ token identity,
    access_token Sample.good_cookie = Some token ∧ falsy token = false ∧
    verify Sample.hs256 (jwt_secret Sample.env) (now Sample.env) token
    = inr identity ∧
    user (mkRequest (cookies Sample.good_cookie) (Some Sample.identity))
    = Some identity.
Proof.
  apply (guard_accepts_only_verified Sample.hs256 Sample.good_cookie
           (mkRequest (cookies Sample.good_cookie) (Some Sample.identity))
           Sample.env Sample.world true).
  reflexivity.
Defined.

Lemma guarded_routes_refuse_first_witness :
  controller_getProfile Sample.hs256 Sample.no_cookie Sample.env Sample.world
  = (inl (UnauthorizedException "Access token not found"), Sample.world) ∧
  controller_updateUser Sample.hs256 "u1" Sample.rename Sample.no_cookie
    Sample.env Sample.world
  = (inl (UnauthorizedException "Access token not found"), Sample.world) ∧
  controller_deleteUser Sample.hs256 "u1" Sample.no_cookie Sample.env Sample.world
  = (inl (UnauthorizedException "Access token not found"), Sample.world) ∧
  controller_getAllUsers Sample.hs256 Sample.no_cookie Sample.env Sample.world
  = (inl (UnauthorizedException "Access token not found"), Sample.world).
Proof.
  apply (guarded_routes_refuse_first Sample.hs256 Sample.no_cookie Sample.env
           Sample.world (UnauthorizedException "Access token not found")
           "u1" Sample.rename).
  reflexivity.
Defined.

Lemma guarded_routes_run_as_token_witness :
  controller_getProfile Sample.hs256 Sample.good_cookie Sample.env Sample.world
  = getProfile Sample.identity Sample.env Sample.world ∧
  controller_updateUser Sample.hs256 "u1" Sample.rename Sample.good_cookie
    Sample.env Sample.world
  = updateUser "u1" Sample.rename Sample.identity Sample.env Sample.world ∧
  controller_deleteUser Sample.hs256 "u1" Sample.good_cookie Sample.env Sample.world
  = deleteUser "u1" Sample.identity Sample.env Sample.world ∧
  controller_getAllUsers Sample.hs256 Sample.good_cookie Sample.env Sample.world
  = listAllUsers Sample.identity Sample.env Sample.world.
Proof.
  apply (guarded_routes_run_as_token Sample.hs256 Sample.good_cookie Sample.env
           Sample.world
           (Jwt (issue Sample.hs256 Sample.refresh_ttl "s3cret" 500 Sample.identity).1)
           Sample.identity "u1" Sample.rename);
    reflexivity.
Defined.

Lemma any_caller_deletes_any_record_witness :
  (controller_deleteUser Sample.hs256 "u2" Sample.good_cookie Sample.env
     Sample.two_users).1
  = inr (ReplyMessageUser "User deleted!" (user_object Sample.bob)) ∧
  List.find (has_id "u2")
    (db (controller_deleteUser Sample.hs256 "u2" Sample.good_cookie Sample.env
           Sample.two_users).2)
  = None.
Proof.
  apply (any_caller_deletes_any_record Sample.hs256 Sample.good_cookie Sample.env
           Sample.two_users
           (Jwt (issue Sample.hs256 Sample.refresh_ttl "s3cret" 500 Sample.identity).1)
           Sample.identity "u2" Sample.bob);
    reflexivity.
Defined.

Lemma login_cookie_passes_guard_witness :
  ∃ u, List.find (has_email "a@x.com") (db Sample.world) = Some u ∧
       decision (canActivate Sample.hs256
                   (mkRequest (Some (receive Sample.login_response ∅)) None)
                   Sample.env_later Sample.empty_world)
       = inr (true, Some (identity_of u)).
Proof.
  apply (login_cookie_passes_guard Sample.hs256 Sample.bcrypt_compare
           Sample.refresh_ttl Sample.alice_login fresh_response
           Sample.login_response Sample.env Sample.env_later Sample.world
           Sample.empty_world (ReplyLogin "Successful login!" "a@x.com") ∅).
  - reflexivity.
  - reflexivity.
  - reflexivity.
Defined.

Lemma success_logs_once_witness :
  ∃ line,
    log_lines (events_of (perform Sample.hs256 Sample.bcrypt_hash
                            Sample.bcrypt_compare Sample.refresh_ttl
                            (OpGetProfile Sample.identity))
                         Sample.env Sample.world) = [line] ∧
    (is_view (OpGetProfile Sample.identity) = false →
     broadcasts (events_of (perform Sample.hs256 Sample.bcrypt_hash
                              Sample.bcrypt_compare Sample.refresh_ttl
                              (OpGetProfile Sample.identity))
                           Sample.env Sample.world) = [line]).
Proof.
  eapply (success_logs_once Sample.hs256 Sample.bcrypt_hash Sample.bcrypt_compare
            Sample.refresh_ttl (OpGetProfile Sample.identity) Sample.env
            Sample.world);
    reflexivity.
Defined.
